(** * A bank of per-label SVM text classifiers: model store, prediction, score report

    A shallow embedding of [load_all_svms], [predict_svm] and [train_svm] of
    [components/python_components/models/svm.py], the variant that checks
    every unpickled object against [Pipeline] and raises [PickleError].
    ([models/svm.py] is the earlier variant: its [load_all_svms] and
    [train_svm] are the same functions, up to the [zero_division] argument of
    [f1_score] and an explicit [return None]; its [predict_svm] prints a
    message where this one raises.)

    The libraries that the code calls are interfaces: scikit-learn ([fit],
    [predict], [f1_score]) is the class [Sklearn], [np.mean] and [round(_, 2)]
    are the class [Numeric], with an instance in IEEE binary64, and [pickle]
    is the class [Pickle]. [pd.DataFrame(data, columns=labels)] is written
    out after pandas' constructor for a dict of arrays. The file system is
    threaded through every function that opens a file; a Python exception is
    a [Raise] result; a generator is the sequence of what it yields, read from
    the front by its consumer. *)

From Stdlib Require Import ZArith List String Ascii PrimFloat.
From Stdlib.Strings Require Import Byte.
From Equations Require Import Equations.
From stdpp Require Import base option list strings gmap.

Local Open Scope string_scope.
Local Open Scope list_scope.

(** ** Exceptions and results *)

(** The exceptions that the modelled code can raise or let through. *)
Inductive exn : Type :=
| KeyError (key : string)            (* dataframe[key] on a missing column *)
| IndexError                         (* labels[i] out of range *)
| ValueError                         (* pd.DataFrame: arrays of different lengths *)
| EOFError                           (* pickle.load: ran out of input *)
| UnpicklingError                    (* pickle.load: corrupt record *)
| FileNotFoundError (path : string)
| IsADirectoryError (path : string)
| PickleError (model_file : string). (* class PickleError(AssertionError) *)

Inductive result (A : Type) : Type :=
| Ok (a : A)
| Raise (e : exn).
Arguments Ok {A} a.
Arguments Raise {A} e.

#[global] Instance result_ret : MRet result := @Ok.
#[global] Instance result_bind : MBind result := fun A B f m =>
  match m with
  | Ok a => f a
  | Raise e => Raise e
  end.

(** ** Files *)

Inductive node : Type :=
| File (content : list byte)
| Dir.

Abbreviation filesystem := (gmap string node).

(** Code that touches the file system: a result and the file system after. *)
Definition IO (A : Type) : Type := filesystem -> result A * filesystem.

#[global] Instance IO_ret : MRet IO := fun A a fs => (Ok a, fs).
#[global] Instance IO_bind : MBind IO := fun A B f m fs =>
  match m fs with
  | (Ok a, fs') => f a fs'
  | (Raise e, fs') => (Raise e, fs')
  end.

(** A computation that does not touch the file system. *)
Definition io_lift {A} (r : result A) : IO A := fun fs => (r, fs).

(** [open(path, "rb")] followed by reading: the content of the file. *)
Definition open_rb (path : string) : IO (list byte) := fun fs =>
  match fs !! path with
  | Some (File content) => (Ok content, fs)
  | Some Dir => (Raise (IsADirectoryError path), fs)
  | None => (Raise (FileNotFoundError path), fs)
  end.

(** [open(path, "wb")]: creates the file, or truncates the one there. *)
Definition open_wb (path : string) : IO unit := fun fs =>
  match fs !! path with
  | Some Dir => (Raise (IsADirectoryError path), fs)
  | _ => (Ok tt, <[path := File []]> fs)
  end.

(** [f.write(data)] on the file opened for writing at [path]. *)
Definition file_write (path : string) (data : list byte) : IO unit := fun fs =>
  match fs !! path with
  | Some (File content) => (Ok tt, <[path := File (content ++ data)]> fs)
  | _ => (Raise (FileNotFoundError path), fs)
  end.


(** ** Python dictionaries: insertion-ordered, keyed by strings *)

Definition dict (V : Type) : Type := list (string * V).

Fixpoint dict_get {V} (d : dict V) (k : string) : option V :=
  match d with
  | [] => None
  | (k', v) :: d' => if String.eqb k' k then Some v else dict_get d' k
  end.

(** [d[k] = v]: an existing key keeps its position, a new key goes last. *)
Fixpoint dict_set {V} (d : dict V) (k : string) (v : V) : dict V :=
  match d with
  | [] => [(k, v)]
  | (k', v') :: d' =>
      if String.eqb k' k then (k', v) :: d' else (k', v') :: dict_set d' k v
  end.

Definition dict_keys {V} (d : dict V) : list string := fst <$> d.
Definition dict_values {V} (d : dict V) : list V := snd <$> d.

(** ** Tables *)

Inductive cell : Type :=
| VStr (s : string)
| VInt (z : Z)
| VNaN.

Definition column : Type := list cell.

(** A pandas DataFrame: the length of its row index and its named columns. *)
Record DataFrame : Type := mkDataFrame {
  df_index : nat;
  df_data : list (string * column)
}.

Definition df_lookup (df : DataFrame) (key : string) : option column :=
  dict_get (df_data df) key.

(** [df[key]] *)
Definition df_getitem (df : DataFrame) (key : string) : result column :=
  match df_lookup df key with
  | Some c => Ok c
  | None => Raise (KeyError key)
  end.

Definition df_columns (df : DataFrame) : list string := fst <$> df_data df.

(** The columns [ys] of [df] under the names [labels], in order. *)
Definition has_columns (df : DataFrame) (labels : list string) (ys : list column) : Prop :=
  Forall2 (fun l y => df_lookup df l = Some y) labels ys.

(** What a validation dataframe, when there is one, must have for the
    labels [labels] to be scored: the text column and a column per label. *)
Definition validation_columns (test : option DataFrame) (labels : list string) : Prop :=
  match test with
  | Some t => is_Some (df_lookup t "Premise") /\ exists yts, has_columns t labels yts
  | None => True
  end.

(** Every column has one cell per row of the index. *)
Definition df_wf (df : DataFrame) : Prop :=
  Forall (fun c => length (snd c) = df_index df) (df_data df).

(** The row index that pandas derives from the arrays it is given: empty
    when there is none, their common length otherwise. *)
Definition extract_index (arrays : list column) : option nat :=
  match arrays with
  | [] => Some 0
  | c :: cs =>
      if forallb (fun c' => Nat.eqb (length c') (length c)) cs
      then Some (length c) else None
  end.

(** [pd.DataFrame(data, columns=columns)] for a dict of arrays: the columns
    are selected from [data] in the order of [columns]; a name that [data]
    lacks gives a column of NaN. *)
Definition pd_DataFrame (data : dict column) (columns : list string) : result DataFrame :=
  match extract_index (omap (dict_get data) columns) with
  | None => Raise ValueError
  | Some n =>
      Ok (mkDataFrame n
            ((fun c => (c, default (replicate n VNaN) (dict_get data c))) <$> columns))
  end.

(** ** The external libraries *)

(** scikit-learn: a fitted [Pipeline] of TfidfVectorizer and
    OneVsRestClassifier(LinearSVC), its training, its prediction, and the
    F1 score (with [zero_division=0]). *)
Class Sklearn : Type := {
  Pipeline : Type;
  fit : column -> column -> Pipeline;
  predict : Pipeline -> column -> column;
  f1_score : column -> column -> float
}.

(** [predict] returns one value per input row. *)
Class SklearnLaws `{Sklearn} : Prop := {
  predict_length : forall (svm : Pipeline) (X : column), length (predict svm X) = length X
}.

(** [np.mean] over a list of scores and [round(_, 2)]. *)
Class Numeric : Type := {
  np_mean : list float -> float;
  round2 : float -> float
}.

(** What a pickle record can turn out to be. *)
Inductive pyobj `{Sklearn} : Type :=
| PyPipeline (svm : Pipeline)
| PyStr (s : string)
| PyNone.

(** [isinstance(o, Pipeline)] *)
Definition is_Pipeline `{Sklearn} (o : pyobj) : bool :=
  match o with
  | PyPipeline _ => true
  | _ => false
  end.

(** Decoding one record: the object and how many bytes after the first
    one the record takes, or the exception raised. *)
Inductive unpickled `{Sklearn} : Type :=
| Unpickled (o : pyobj) (n : nat)
| UnpickleFail (e : exn).

(** pickle: [pickle_dumps o] is what [pickle.dump(o, f)] writes;
    [pickle_decode op bytes] decodes the record that starts with the byte
    [op] and goes on in [bytes]. *)
Class Pickle `{Sklearn} : Type := {
  pickle_dumps : pyobj -> list byte;
  pickle_decode : byte -> list byte -> unpickled
}.

(** Load after dump: a dumped record is not empty, and is decoded
    to the object dumped whatever follows it. *)
Class PickleLaws `{Pickle} : Prop := {
  decode_dumps : forall (o : pyobj) (rest : list byte),
    exists op body,
      pickle_dumps o = op :: body /\
      pickle_decode op (body ++ rest) = Unpickled o (length body)
}.

(** ** The model store codec *)

(** A Python generator run to its end: the values it yields, then a normal
    return or an exception. The consumer reads it from the front; what comes
    after the point where the consumer stops is never run. *)
Inductive generator (A : Type) : Type :=
| Yield (a : A) (rest : generator A)
| Return
| Throw (e : exn).
Arguments Yield {A} a rest.
Arguments Return {A}.
Arguments Throw {A} e.

(** The generator that yields the objects of [os] and then ends as [final]. *)
Fixpoint yields {A} (os : list A) (final : generator A) : generator A :=
  match os with
  | [] => final
  | o :: os' => Yield o (yields os' final)
  end.

(** A value together with the equation that it is the value of [x]. *)
Definition inspect {A : Type} (x : A) : { y : A | x = y } := exist _ x eq_refl.

Section Svm.
Context `{PK : Pickle} {NM : Numeric}.

(** [pickle.load(f)] on an open file whose unread bytes are [f]: the object
    read and the bytes left unread. At the end of the file it raises
    EOFError. *)
Definition pickle_load (f : list byte) : result pyobj * list byte :=
  match f with
  | [] => (Raise EOFError, [])
  | op :: bytes =>
      match pickle_decode op bytes with
      | Unpickled o n => (Ok o, drop n bytes)
      | UnpickleFail e => (Raise e, f)
      end
  end.

(** [pickle.dump(o, f)] on the file opened for writing at [path]. *)
Definition pickle_dump (o : pyobj) (path : string) : IO unit :=
  file_write path (pickle_dumps o).

(** The [while True] loop of [load_all_svms] over the unread bytes [f]:
    [yield pickle.load(f)] until EOFError, which breaks the loop. *)
Equations? load_all_svms_loop (f : list byte) : generator pyobj by wf (length f) lt :=
  load_all_svms_loop f with inspect (pickle_load f) := {
    | exist _ (Ok svm, f') _ => Yield svm (load_all_svms_loop f');
    | exist _ (Raise EOFError, _) _ => Return;
    | exist _ (Raise e, _) _ => Throw e }.
Proof.
  destruct f as [|op bytes]; [inversion e|].
  unfold pickle_load in e. destruct (pickle_decode op bytes); inversion e; subst.
  rewrite length_drop. simpl. lia.
Qed.

(** [load_all_svms(model_file)] *)
Definition load_all_svms (model_file : string) : IO (generator pyobj) :=
  f ← open_rb model_file;
  mret (load_all_svms_loop f).

(** ** Prediction *)

(** The loop [for i, svm in enumerate(load_all_svms(model_file))] of
    [predict_svm], at index [i] with [svms] still to come. *)
Fixpoint predict_loop (input_vector : column) (labels : list string) (model_file : string)
    (i : nat) (svms : generator pyobj) (df_model_predictions : dict column)
    : result (dict column) :=
  match svms with
  | Return => Ok df_model_predictions
  | Throw e => Raise e
  | Yield (PyPipeline svm) rest =>
      let y := predict svm input_vector in
      match labels !! i with
      | Some label =>
          predict_loop input_vector labels model_file (S i) rest
            (dict_set df_model_predictions label y)
      | None => Raise IndexError
      end
  | Yield _ _ => Raise (PickleError model_file)
  end.

Definition predict_svm (dataframe : DataFrame) (labels : list string) (model_file : string)
    : IO DataFrame :=
  input_vector ← io_lift (df_getitem dataframe "Premise");
  svms ← load_all_svms model_file;
  df_model_predictions ← io_lift (predict_loop input_vector labels model_file 0 svms []);
  io_lift (pd_DataFrame df_model_predictions labels).

(** ** Training *)

(** The loop [for label_name in labels] of [train_svm]. [validation] is the
    validation dataframe with its text column when one was given. *)
Fixpoint train_loop (train_dataframe : DataFrame) (train_input_vector : column)
    (model_file : string) (validation : option (DataFrame * column))
    (labels : list string) (f1_scores : dict float) : IO (dict float) :=
  match labels with
  | [] => mret f1_scores
  | label_name :: labels' =>
      y ← io_lift (df_getitem train_dataframe label_name);
      let svm := fit train_input_vector y in
      f1_scores' ← io_lift
        match validation with
        | Some (test_dataframe, valid_input_vector) =>
            let valid_pred := predict svm valid_input_vector in
            y_true ← df_getitem test_dataframe label_name;
            mret (dict_set f1_scores label_name (round2 (f1_score y_true valid_pred)))
        | None => mret f1_scores
        end;
      pickle_dump (PyPipeline svm) model_file;;
      train_loop train_dataframe train_input_vector model_file validation labels' f1_scores'
  end.

(** [train_svm]; the result is [None] when it returns nothing. *)
Definition train_svm (train_dataframe : DataFrame) (labels : list string)
    (model_file : string) (test_dataframe : option DataFrame) : IO (option (dict float)) :=
  train_input_vector ← io_lift (df_getitem train_dataframe "Premise");
  validation ← io_lift
    match test_dataframe with
    | Some t => valid_input_vector ← df_getitem t "Premise"; mret (Some (t, valid_input_vector))
    | None => mret None
    end;
  open_wb model_file;;
  f1_scores ← train_loop train_dataframe train_input_vector model_file validation labels [];
  match validation with
  | Some _ =>
      mret (Some (dict_set f1_scores "avg-f1-score" (round2 (np_mean (dict_values f1_scores)))))
  | None => mret None
  end.

(** [with open(model_file, "wb") as f:] and then [pickle.dump(o, f)] for
    each object of [os] in turn: the writes of [train_svm], on their own. *)
Fixpoint dump_loop (model_file : string) (os : list pyobj) : IO unit :=
  match os with
  | [] => mret tt
  | o :: os' => pickle_dump o model_file;; dump_loop model_file os'
  end.

Definition write_store (model_file : string) (os : list pyobj) : IO unit :=
  open_wb model_file;; dump_loop model_file os.

(** The score recorded for a label whose training target is [y] and whose
    validation target is [y_true]. *)
Definition label_score (X Xv : column) (y y_true : column) : float :=
  round2 (f1_score y_true (predict (fit X y) Xv)).

(** ** What a store holds *)

(** [reads f os f']: from the unread bytes [f], successive [pickle.load]s
    return the objects [os] and leave [f'] unread. *)
Inductive reads : list byte -> list pyobj -> list byte -> Prop :=
| reads_nil f : reads f [] f
| reads_cons f o f1 os f' :
    pickle_load f = (Ok o, f1) -> reads f1 os f' -> reads f (o :: os) f'.

(** The store [f] holds the records [os] and nothing more: after them
    [pickle.load] signals the end of the data. *)
Definition store_records (f : list byte) (os : list pyobj) : Prop :=
  exists f', reads f os f' /\ fst (pickle_load f') = Raise EOFError.

(** The store that [pickle.dump] writes for the objects [os], in order. *)
Definition dump_all (os : list pyobj) : list byte :=
  concat (pickle_dumps <$> os).

(** The prediction table's entries after the loop of [predict_svm] has paired
    [labels] with [svms] by position, starting from [d]. *)
Definition paired_predictions (input_vector : column) (labels : list string)
    (svms : list Pipeline) (d : dict column) : dict column :=
  fold_left (fun d lm => dict_set d (fst lm) (predict (snd lm) input_vector))
            (zip labels svms) d.

End Svm.

(** The value of the last pair of [kvs] whose key is [k]. *)
Fixpoint assoc_last {V} (kvs : list (string * V)) (k : string) : option V :=
  match kvs with
  | [] => None
  | (k', v) :: kvs' =>
      match assoc_last kvs' k with
      | Some v' => Some v'
      | None => if String.eqb k' k then Some v else None
      end
  end.

(** ** IEEE binary64 arithmetic for the score report *)

Module Binary64.
Local Open Scope float_scope.

Definition two52 : float := 4503599627370496.

(** Round to the nearest integer, ties to even ([np.rint]). *)
Definition rint (x : float) : float :=
  let a := abs x in
  if a <? two52
  then (let r := (a + two52) - two52 in if x <? 0 then - r else r)
  else x.

(** numpy's rounding to two decimals: [rint(x * 100) / 100]. *)
Definition np_round2 (x : float) : float := rint (x * 100) / 100.

(** The number of elements of a list, as a float. *)
Definition count (xs : list float) : float := fold_left (fun n _ => n + 1) xs 0.

(** The mean by a sum from left to right, the order of numpy's summation on
    an array of fewer than eight elements. *)
Definition np_mean_seq (xs : list float) : float := fold_left add xs 0 / count xs.

#[export] Instance numeric : Numeric := {| np_mean := np_mean_seq; round2 := np_round2 |}.

(** The doubles nearest to 0.80, 0.60, 0.70 and 0.50. *)
Definition d0_80 : float := 0x1.999999999999ap-1.
Definition d0_60 : float := 0x1.3333333333333p-1.
Definition d0_70 : float := 0x1.6666666666666p-1.
Definition d0_50 : float := 0x1p-1.

End Binary64.

(** ** A small instance of the libraries, to run the model on *)

Module Toy.

(** A constant classifier: it answers 1 on every row when the training
    target has a 1, and 0 otherwise. *)
Definition toy_fit (X y : column) : bool :=
  existsb (fun c => match c with VInt 1 => true | _ => false end) y.

Definition toy_predict (svm : bool) (X : column) : column :=
  map (fun _ => VInt (if svm then 1 else 0)) X.

Definition is_one (c : cell) : bool :=
  match c with
  | VInt 1 => true
  | _ => false
  end.

(** The number of rows where truth and prediction satisfy [p], as a float. *)
Definition toy_count (p : bool -> bool -> bool) (y_true y_pred : column) : float :=
  fold_left (fun n tp => if p (is_one (fst tp)) (is_one (snd tp)) then (n + 1)%float else n)
            (zip y_true y_pred) 0%float.

(** The F1 score of class 1: 2TP / (2TP + FP + FN), and 0 when that
    denominator is 0. *)
Definition toy_f1_score (y_true y_pred : column) : float :=
  let tp := toy_count andb y_true y_pred in
  let fp := toy_count (fun t p => negb t && p) y_true y_pred in
  let fn := toy_count (fun t p => t && negb p) y_true y_pred in
  let den := (2 * tp + fp + fn)%float in
  if (den =? 0)%float then 0%float else (2 * tp / den)%float.

#[export] Instance sklearn : Sklearn :=
  {| Pipeline := bool; fit := toy_fit; predict := toy_predict; f1_score := toy_f1_score |}.

(** A string as (01, character) pairs closed by 00. *)
Fixpoint toy_dump_str (s : string) : list byte :=
  match s with
  | EmptyString => [x00]
  | String c s' => x01 :: byte_of_ascii c :: toy_dump_str s'
  end.

Fixpoint toy_read_str (bytes : list byte) : option (string * nat) :=
  match bytes with
  | b :: bytes' =>
      if Byte.eqb b x00 then Some (EmptyString, 1)
      else if Byte.eqb b x01 then
        match bytes' with
        | c :: bytes'' =>
            match toy_read_str bytes'' with
            | Some (s, n) => Some (String (ascii_of_byte c) s, 2 + n)
            | None => None
            end
        | [] => None
        end
      else None
  | [] => None
  end.

(** One tag byte, then the payload. *)
Definition toy_dumps (o : pyobj) : list byte :=
  match o with
  | PyPipeline svm => [x01; if svm then x01 else x00]
  | PyStr s => x02 :: toy_dump_str s
  | PyNone => [x03]
  end.

Definition toy_decode (op : byte) (bytes : list byte) : unpickled :=
  if Byte.eqb op x01 then
    match bytes with
    | b :: _ =>
        if Byte.eqb b x00 then Unpickled (PyPipeline false) 1
        else if Byte.eqb b x01 then Unpickled (PyPipeline true) 1
        else UnpickleFail UnpicklingError
    | [] => UnpickleFail UnpicklingError
    end
  else if Byte.eqb op x02 then
    match toy_read_str bytes with
    | Some (s, n) => Unpickled (PyStr s) n
    | None => UnpickleFail UnpicklingError
    end
  else if Byte.eqb op x03 then Unpickled PyNone 0
  else UnpickleFail UnpicklingError.

#[export] Instance pickle : Pickle :=
  {| pickle_dumps := toy_dumps; pickle_decode := toy_decode |}.

(** A training set of two rows and a validation set of two rows, with the
    label columns [a], [b] and [avg-f1-score]. *)
Definition train_set : DataFrame :=
  mkDataFrame 2 [("Premise", [VStr "we should"; VStr "we should not"]);
                 ("a", [VInt 1; VInt 0]);
                 ("b", [VInt 0; VInt 1]);
                 ("avg-f1-score", [VInt 0; VInt 0])].

Definition valid_set : DataFrame :=
  mkDataFrame 2 [("Premise", [VStr "it is"; VStr "it was"]);
                 ("a", [VInt 1; VInt 1]);
                 ("b", [VInt 0; VInt 1]);
                 ("avg-f1-score", [VInt 1; VInt 1])].

(** A validation set of 21 rows on which the classifier that answers 1
    everywhere scores 28/35 on [a] and 18/30 on [b]. *)
Definition valid_21 : DataFrame :=
  mkDataFrame 21 [("Premise", replicate 21 (VStr "it is"));
                  ("a", replicate 14 (VInt 1) ++ replicate 7 (VInt 0));
                  ("b", replicate 9 (VInt 1) ++ replicate 12 (VInt 0))].

Definition one_row : DataFrame := mkDataFrame 1 [("Premise", [VStr "we should"])].

(** The records of a list of fitted classifiers. *)
Abbreviation models := (fmap (M := list) (@PyPipeline sklearn)).

(** The file system whose one file is the store [svm.model], with the bytes [f]. *)
Definition fs_with (f : list byte) : filesystem := {["svm.model" := File f]}.

(** Stores: two valid models; one valid model; no record at all; a valid
    model and then a plain string; the same followed by two bytes that are
    no record. *)
Definition two_models : list byte := dump_all [PyPipeline true; PyPipeline false].
Definition one_model : list byte := dump_all [PyPipeline true].
Definition no_record : list byte := [].
Definition model_then_str : list byte := dump_all [PyPipeline true; PyStr "x"].
Definition model_str_garbage : list byte := model_then_str ++ [xff; xff].

End Toy.

(** * Properties *)

(** ** Dictionaries *)

Section Dict.
Context {V : Type}.
Implicit Types (d : dict V) (k : string) (v : V).

Lemma dict_get_set_eq d k v : dict_get (dict_set d k v) k = Some v.
Proof.
  induction d as [|[k' v'] d IH]; simpl.
  - by rewrite String.eqb_refl.
  - destruct (String.eqb k' k) eqn:E; simpl; rewrite E; [done|apply IH].
Qed.

Lemma dict_get_set_ne d k k' v : k <> k' -> dict_get (dict_set d k v) k' = dict_get d k'.
Proof.
  intros Hne. induction d as [|[k0 v0] d IH]; simpl.
  - by apply String.eqb_neq in Hne as ->.
  - destruct (String.eqb k0 k) eqn:E; simpl.
    + apply String.eqb_eq in E as ->. by apply String.eqb_neq in Hne as ->.
    + by rewrite IH.
Qed.

Lemma dict_get_None d k : dict_get d k = None <-> k ∉ dict_keys d.
Proof.
  induction d as [|[k' v'] d IH]; simpl.
  - split; [intros _; apply not_elem_of_nil|done].
  - rewrite not_elem_of_cons, <- IH.
    destruct (String.eqb k' k) eqn:E.
    + apply String.eqb_eq in E. split; [done|]. intros [? _]. congruence.
    + apply String.eqb_neq in E. split; [|tauto]. intros ->. split; [congruence|done].
Qed.

Lemma dict_get_Some_elem d k v : dict_get d k = Some v -> (k, v) ∈ d.
Proof.
  induction d as [|[k' v'] d IH]; simpl; [done|].
  destruct (String.eqb k' k) eqn:E.
  - apply String.eqb_eq in E as ->. intros [= ->]. apply list_elem_of_here.
  - intros. apply list_elem_of_further. auto.
Qed.

Lemma dict_get_fold_set (kvs : list (string * V)) d k :
  dict_get (fold_left (fun d kv => dict_set d (fst kv) (snd kv)) kvs d) k =
  match assoc_last kvs k with
  | Some v => Some v
  | None => dict_get d k
  end.
Proof.
  revert d. induction kvs as [|[k' v'] kvs IH]; intros d; simpl; [done|].
  rewrite IH. destruct (assoc_last kvs k); [done|].
  destruct (String.eqb k' k) eqn:E.
  - apply String.eqb_eq in E as ->. apply dict_get_set_eq.
  - apply String.eqb_neq in E. by apply dict_get_set_ne.
Qed.

End Dict.

(** ** The IO monad *)

Lemma io_bind_ok {A B} (m : IO A) (k : A -> IO B) fs a fs' :
  m fs = (Ok a, fs') -> (m ≫= k) fs = k a fs'.
Proof. intros Hm. unfold mbind, IO_bind. by rewrite Hm. Qed.

(** Run the first step of a computation in [IO], given that it succeeds. *)
Ltac io_ok tac := erewrite io_bind_ok; [|tac].

(** The same for a step [df[key]], given the column [H] found under the key. *)
Ltac io_getitem H :=
  io_ok ltac:(unfold io_lift, df_getitem; rewrite H; reflexivity).






(** ** The codec *)

Section Codec.
Context `{PK : Pickle}.

Lemma load_all_svms_loop_clause f (p : {y | pickle_load f = y}) :
  load_all_svms_loop_unfold_clause_1 f p =
  match proj1_sig p with
  | (Ok svm, f') => Yield svm (load_all_svms_loop f')
  | (Raise EOFError, _) => Return
  | (Raise e, _) => Throw e
  end.
Proof. destruct p as [[[svm|e] f'] E]; [|destruct e]; reflexivity. Qed.

(** One turn of the [while True] loop. *)
Lemma load_all_svms_loop_step f :
  load_all_svms_loop f =
  match pickle_load f with
  | (Ok svm, f') => Yield svm (load_all_svms_loop f')
  | (Raise EOFError, _) => Return
  | (Raise e, _) => Throw e
  end.
Proof. rewrite load_all_svms_loop_equation_1. apply load_all_svms_loop_clause. Qed.

Lemma pickle_load_shorter f o f' : pickle_load f = (Ok o, f') -> length f' < length f.
Proof.
  destruct f as [|op bytes]; [inversion 1|]. unfold pickle_load.
  destruct (pickle_decode op bytes); inversion 1; subst.
  rewrite length_drop. simpl. lia.
Qed.

Lemma load_all_svms_loop_reads f os f' :
  reads f os f' -> load_all_svms_loop f = yields os (load_all_svms_loop f').
Proof.
  induction 1 as [f|f o f1 os f' Hload _ IH]; simpl; [done|].
  by rewrite load_all_svms_loop_step, Hload, IH.
Qed.

Lemma load_all_svms_loop_eof f :
  fst (pickle_load f) = Raise EOFError -> load_all_svms_loop f = Return.
Proof.
  intros Heof. rewrite load_all_svms_loop_step.
  destruct (pickle_load f) as [r f']; simpl in Heof. by subst r.
Qed.

Lemma load_all_svms_loop_store f os :
  store_records f os -> load_all_svms_loop f = yields os Return.
Proof.
  intros (f' & Hreads & Heof).
  by rewrite (load_all_svms_loop_reads _ _ _ Hreads), load_all_svms_loop_eof.
Qed.

Lemma reads_app_inv f os1 os2 f2 :
  reads f (os1 ++ os2) f2 -> exists f1, reads f os1 f1 /\ reads f1 os2 f2.
Proof.
  revert f. induction os1 as [|o os1 IH]; simpl; intros f Hr.
  - exists f. split; [constructor|done].
  - inversion Hr as [|? ? f1' ? ? Hload Hrest]; subst.
    destruct (IH _ Hrest) as (f1 & ? & ?). exists f1. split; [|done].
    econstructor; eauto.
Qed.

Lemma load_all_svms_open model_file (fs : filesystem) f :
  fs !! model_file = Some (File f) ->
  load_all_svms model_file fs = (Ok (load_all_svms_loop f), fs).
Proof.
  intros Hf. unfold load_all_svms.
  erewrite io_bind_ok; [done|]. unfold open_rb. by rewrite Hf.
Qed.


Section Laws.
Context `{!PickleLaws}.

Lemma pickle_load_dumps o rest : pickle_load (pickle_dumps o ++ rest) = (Ok o, rest).
Proof.
  destruct (decode_dumps o rest) as (op & body & -> & Hdec). simpl.
  by rewrite Hdec, drop_app_length.
Qed.

Lemma reads_dump_all os rest : reads (dump_all os ++ rest) os rest.
Proof.
  induction os as [|o os IH]; simpl; [constructor|].
  unfold dump_all. simpl. rewrite <- app_assoc.
  econstructor; [apply pickle_load_dumps|apply IH].
Qed.

Lemma store_records_dump_all os : store_records (dump_all os) os.
Proof.
  exists []. split; [|done].
  rewrite <- (app_nil_r (dump_all os)) at 1. apply reads_dump_all.
Qed.

End Laws.
End Codec.

(** ** Pairing by position *)

Lemma assoc_last_is_Some {V} (kvs : list (string * V)) k i v :
  kvs !! i = Some (k, v) -> is_Some (assoc_last kvs k).
Proof.
  revert i. induction kvs as [|[k0 v0] kvs IH]; intros i Hi; [done|].
  simpl. destruct i as [|i]; simpl in Hi.
  - simplify_eq. rewrite String.eqb_refl. by destruct (assoc_last kvs k).
  - destruct (IH _ Hi) as [v' ->]. done.
Qed.

(** [assoc_last] finds the pair with the key at the greatest position. *)
Lemma assoc_last_Some {V} (kvs : list (string * V)) k v :
  assoc_last kvs k = Some v <->
  exists i, kvs !! i = Some (k, v) /\ forall j v', i < j -> kvs !! j <> Some (k, v').
Proof.
  revert v. induction kvs as [|[k0 v0] kvs IH]; intros v; simpl.
  { split; [done|]. by intros (i & ? & _). }
  destruct (assoc_last kvs k) as [v1|] eqn:E.
  - split.
    + intros [= ->]. destruct (proj1 (IH v) eq_refl) as (i & Hi & Hlast).
      exists (S i). split; [done|]. intros [|j] v' ?; [lia|]. apply Hlast. lia.
    + intros ([|i] & Hi & Hlast); simpl in *.
      * destruct (proj1 (IH v1) eq_refl) as (i & Hi' & _).
        destruct (Hlast (S i) v1); [lia|done].
      * apply IH. exists i. split; [done|]. intros j v' Hj. apply (Hlast (S j) v'). lia.
  - assert (Hnone : forall i v', kvs !! i <> Some (k, v')).
    { intros i v' Hi. apply assoc_last_is_Some in Hi as [? ?]. congruence. }
    destruct (String.eqb k0 k) eqn:Ek.
    + apply String.eqb_eq in Ek as ->. split.
      * intros [= ->]. exists 0. split; [done|]. intros [|j] v' ?; [lia|]. apply Hnone.
      * intros ([|i] & Hi & _); simpl in Hi; [by simplify_eq|]. by apply Hnone in Hi.
    + apply String.eqb_neq in Ek. split; [done|].
      intros ([|i] & Hi & _); simpl in Hi; [by simplify_eq|]. by apply Hnone in Hi.
Qed.

Lemma assoc_last_None {V} (kvs : list (string * V)) k :
  assoc_last kvs k = None <-> k ∉ kvs.*1.
Proof.
  induction kvs as [|[k0 v0] kvs IH]; simpl.
  - split; [intros _; apply not_elem_of_nil|done].
  - rewrite not_elem_of_cons, <- IH. destruct (assoc_last kvs k).
    + split; [done|]. by intros [_ ?].
    + destruct (String.eqb k0 k) eqn:Ek.
      * apply String.eqb_eq in Ek. split; [done|]. intros [? _]. congruence.
      * apply String.eqb_neq in Ek. split; [|done]. intros _. split; [congruence|done].
Qed.

Lemma assoc_last_fmap {V W} (g : V -> W) (kvs : list (string * V)) k :
  assoc_last (prod_map id g <$> kvs) k = g <$> assoc_last kvs k.
Proof.
  induction kvs as [|[k0 v0] kvs IH]; csimpl; [done|].
  rewrite IH. destruct (assoc_last kvs k); simpl; [done|]. by destruct (String.eqb k0 k).
Qed.

Section Predict.
Context `{PK : Pickle}.
Implicit Types (X : column) (labels : list string) (ms : list Pipeline) (d : dict column).

Lemma paired_predictions_cons X l labels m ms d :
  paired_predictions X (l :: labels) (m :: ms) d =
  paired_predictions X labels ms (dict_set d l (predict m X)).
Proof. reflexivity. Qed.

(** What the assembled dictionary holds under a label: the prediction of the
    model paired last with that label. *)
Lemma dict_get_paired X labels ms d l :
  dict_get (paired_predictions X labels ms d) l =
  match assoc_last (zip labels ms) l with
  | Some m => Some (predict m X)
  | None => dict_get d l
  end.
Proof.
  unfold paired_predictions.
  assert (Hfold : forall kvs d0,
    fold_left (fun d lm => dict_set d (fst lm) (predict (snd lm) X)) kvs d0 =
    fold_left (fun d kv => dict_set d (fst kv) (snd kv))
              (prod_map id (fun m => predict m X) <$> kvs) d0).
  { induction kvs as [|[k m] kvs IH]; intros d0; csimpl; [done|]. apply IH. }
  rewrite Hfold, dict_get_fold_set, assoc_last_fmap.
  by destruct (assoc_last (zip labels ms) l).
Qed.

(** The loop over a run of valid models that the labels cover. *)
Lemma predict_loop_pipelines X labels model_file ms : forall i d tail,
  i + length ms <= length labels ->
  predict_loop X labels model_file i (yields (PyPipeline <$> ms) tail) d =
  predict_loop X labels model_file (i + length ms) tail
    (paired_predictions X (drop i labels) ms d).
Proof.
  induction ms as [|m ms IH]; intros i d tail Hlen; simpl in *.
  - rewrite Nat.add_0_r. by destruct (drop i labels).
  - destruct (lookup_lt_is_Some_2 labels i) as [l Hl]; [lia|].
    rewrite Hl, (drop_S _ _ _ Hl), paired_predictions_cons, IH by lia.
    f_equal. lia.
Qed.

(** The loop over a run of valid models longer than the labels. *)
Lemma predict_loop_overflow X labels model_file ms : forall i d tail,
  i <= length labels -> length labels < i + length ms ->
  predict_loop X labels model_file i (yields (PyPipeline <$> ms) tail) d = Raise IndexError.
Proof.
  induction ms as [|m ms IH]; intros i d tail Hi Hlen; simpl in *; [lia|].
  destruct (labels !! i) as [l|] eqn:Hl; [|done].
  apply lookup_lt_Some in Hl. apply IH; lia.
Qed.

Lemma predict_loop_not_Pipeline X labels model_file i o tail d :
  is_Pipeline o = false ->
  predict_loop X labels model_file i (Yield o tail) d = Raise (PickleError model_file).
Proof. by destruct o. Qed.

End Predict.

(** ** Assembling the table *)

Lemma dict_values_set_Forall {V} (P : V -> Prop) (d : dict V) k v :
  Forall P (dict_values d) -> P v -> Forall P (dict_values (dict_set d k v)).
Proof.
  unfold dict_values. intros Hd Hv. induction d as [|[k' v'] d IH]; csimpl.
  - by constructor.
  - inversion Hd; subst. destruct (String.eqb k' k); csimpl; constructor; auto.
Qed.

Lemma omap_dict_get_Forall {V} (P : V -> Prop) (d : dict V) (ks : list string) :
  Forall P (dict_values d) -> Forall P (omap (dict_get d) ks).
Proof.
  intros Hd. apply Forall_forall. intros v (k & _ & Hk)%list_elem_of_omap.
  apply dict_get_Some_elem in Hk. rewrite Forall_forall in Hd. apply Hd.
  unfold dict_values. apply list_elem_of_fmap. by exists (k, v).
Qed.

Lemma omap_dict_get_nil {V} (ks : list string) : omap (dict_get (V:=V) []) ks = [].
Proof. by induction ks. Qed.

Lemma extract_index_same n (arrays : list column) :
  Forall (fun c => length c = n) arrays ->
  extract_index arrays = Some (match arrays with [] => 0 | _ => n end).
Proof.
  destruct arrays as [|c cs]; [done|]. intros Hall. inversion Hall as [|? ? Hc Hcs]; subst.
  unfold extract_index. rewrite (proj2 (forallb_forall _ cs)); [done|].
  intros c' Hc'. apply Nat.eqb_eq. rewrite Forall_forall in Hcs.
  apply Hcs. by apply list_elem_of_In.
Qed.

(** The table built from arrays of one length [n]. *)
Lemma pd_DataFrame_same n (data : dict column) (columns : list string) :
  Forall (fun c => length c = n) (dict_values data) ->
  let rows := match omap (dict_get data) columns with [] => 0 | _ => n end in
  pd_DataFrame data columns =
  Ok (mkDataFrame rows
        ((fun c => (c, default (replicate rows VNaN) (dict_get data c))) <$> columns)).
Proof.
  intros Hall rows. unfold pd_DataFrame.
  by rewrite (extract_index_same n) by by apply omap_dict_get_Forall.
Qed.

Section PredictTable.
Context `{PK : Pickle}.
Implicit Types (X : column) (labels : list string) (ms : list Pipeline) (d : dict column).

(** [predict_svm] once the text column and the store have been found. *)
Lemma predict_svm_run dataframe labels model_file (fs : filesystem) X f :
  df_lookup dataframe "Premise" = Some X ->
  fs !! model_file = Some (File f) ->
  predict_svm dataframe labels model_file fs =
  (predict_loop X labels model_file 0 (load_all_svms_loop f) [] ≫=
     fun d => pd_DataFrame d labels, fs).
Proof.
  intros HX Hf. unfold predict_svm.
  io_getitem HX.
  io_ok ltac:(by apply load_all_svms_open).
  unfold mbind at 1, IO_bind, io_lift.
  by destruct (predict_loop X labels model_file 0 (load_all_svms_loop f) []).
Qed.

Lemma paired_predictions_lengths `{!SklearnLaws} X labels ms d :
  Forall (fun c => length c = length X) (dict_values d) ->
  Forall (fun c => length c = length X) (dict_values (paired_predictions X labels ms d)).
Proof.
  revert ms d. induction labels as [|l labels IH]; intros [|m ms] d Hd; try done.
  rewrite paired_predictions_cons. apply IH.
  apply dict_values_set_Forall; [done|apply predict_length].
Qed.

Lemma paired_predictions_nil X labels d : paired_predictions X labels [] d = d.
Proof. unfold paired_predictions. by destruct labels. Qed.

(** The first label has an entry as soon as there is one model. *)
Lemma dict_get_paired_head X l labels m ms d :
  is_Some (dict_get (paired_predictions X (l :: labels) (m :: ms) d) l).
Proof.
  rewrite dict_get_paired. simpl. destruct (assoc_last (zip labels ms) l); [done|].
  by rewrite String.eqb_refl.
Qed.

(** [predict_svm] on a store of valid models that the labels cover: the
    table has a column per label, filled from the model paired last with
    the label when there is one, with NaN otherwise. *)
Lemma predict_svm_covered `{!SklearnLaws} dataframe labels model_file (fs : filesystem) X f ms :
  df_lookup dataframe "Premise" = Some X ->
  fs !! model_file = Some (File f) ->
  store_records f (PyPipeline <$> ms) ->
  length ms <= length labels ->
  let rows := match ms with [] => 0 | _ => length X end in
  predict_svm dataframe labels model_file fs =
  (Ok (mkDataFrame rows
         ((fun l => (l, default (replicate rows VNaN)
                          (dict_get (paired_predictions X labels ms []) l))) <$> labels)), fs).
Proof.
  intros HX Hf Hstore Hlen rows.
  rewrite (predict_svm_run _ _ _ _ X f) by done.
  rewrite (load_all_svms_loop_store _ _ Hstore).
  rewrite predict_loop_pipelines by (simpl; lia). simpl. rewrite drop_0.
  unfold mbind, result_bind.
  rewrite (pd_DataFrame_same (length X)) by by apply paired_predictions_lengths.
  repeat f_equal; subst rows.
  all: destruct ms as [|m ms];
         [by rewrite paired_predictions_nil, omap_dict_get_nil|];
       destruct labels as [|l labels]; [simpl in Hlen; lia|];
       destruct (dict_get_paired_head X l labels m ms []) as [c Hc];
       simpl omap; by rewrite Hc.
Qed.

End PredictTable.

(** ** Training *)

Section Train.
Context `{PK : Pickle} {NM : Numeric}.
Implicit Types (X Xv : column) (labels : list string) (ys yts : list column).

Lemma pickle_dump_run o model_file (fs : filesystem) c :
  fs !! model_file = Some (File c) ->
  pickle_dump o model_file fs = (Ok tt, <[model_file := File (c ++ pickle_dumps o)]> fs).
Proof. intros Hc. unfold pickle_dump, file_write. by rewrite Hc. Qed.

Lemma open_wb_run model_file (fs : filesystem) :
  fs !! model_file <> Some Dir ->
  open_wb model_file fs = (Ok tt, <[model_file := File []]> fs).
Proof. intros Hd. unfold open_wb. by destruct (fs !! model_file) as [[]|]. Qed.

Lemma dump_all_cons o os : dump_all (o :: os) = pickle_dumps o ++ dump_all os.
Proof. reflexivity. Qed.

Lemma dump_loop_run model_file os : forall (fs : filesystem) c,
  fs !! model_file = Some (File c) ->
  dump_loop model_file os fs = (Ok tt, <[model_file := File (c ++ dump_all os)]> fs).
Proof.
  induction os as [|o os IH]; intros fs c Hc; simpl.
  - unfold dump_all. simpl. rewrite app_nil_r. by rewrite insert_id.
  - io_ok ltac:(by apply pickle_dump_run).
    erewrite IH; [|apply lookup_insert_eq].
    by rewrite insert_insert_eq, dump_all_cons, app_assoc.
Qed.

(** The loop without validation: the scores stay as they were and the
    fitted pipelines are appended to the store. *)
Lemma train_loop_plain train X model_file labels : forall ys scores (fs : filesystem) c,
  has_columns train labels ys ->
  fs !! model_file = Some (File c) ->
  train_loop train X model_file None labels scores fs =
  (Ok scores, <[model_file := File (c ++ dump_all (PyPipeline <$> (fit X <$> ys)))]> fs).
Proof.
  induction labels as [|l labels IH]; intros ys scores fs c Hys Hc;
    inversion Hys as [|? y ? ys' Hy Hys']; subst; cbn [train_loop].
  - unfold dump_all. simpl. rewrite app_nil_r. by rewrite insert_id.
  - io_getitem Hy.
    io_ok ltac:(reflexivity).
    io_ok ltac:(by apply pickle_dump_run).
    erewrite IH; [|done|apply lookup_insert_eq].
    by rewrite insert_insert_eq, !fmap_cons, dump_all_cons, app_assoc.
Qed.

(** The loop with validation: each label's score is recorded as well. *)
Lemma train_loop_validated train X model_file t Xv labels :
  forall ys yts scores (fs : filesystem) c,
  has_columns train labels ys ->
  has_columns t labels yts ->
  fs !! model_file = Some (File c) ->
  train_loop train X model_file (Some (t, Xv)) labels scores fs =
  (Ok (fold_left (fun d kv => dict_set d (fst kv) (snd kv))
         (zip labels (zip_with (label_score X Xv) ys yts)) scores),
   <[model_file := File (c ++ dump_all (PyPipeline <$> (fit X <$> ys)))]> fs).
Proof.
  induction labels as [|l labels IH]; intros ys yts scores fs c Hys Hyts Hc;
    inversion Hys as [|? y ? ys' Hy Hys']; inversion Hyts as [|? yt ? yts' Hyt Hyts'];
    subst; cbn [train_loop].
  - unfold dump_all. simpl. rewrite app_nil_r. by rewrite insert_id.
  - io_getitem Hy.
    io_getitem Hyt.
    io_ok ltac:(by apply pickle_dump_run).
    erewrite IH; [|done|done|apply lookup_insert_eq].
    by rewrite insert_insert_eq, !fmap_cons, dump_all_cons, app_assoc.
Qed.

(** [train_svm] without a validation dataframe. *)
Lemma train_svm_plain train labels model_file (fs : filesystem) X ys :
  df_lookup train "Premise" = Some X ->
  has_columns train labels ys ->
  fs !! model_file <> Some Dir ->
  train_svm train labels model_file None fs =
  (Ok None, <[model_file := File (dump_all (PyPipeline <$> (fit X <$> ys)))]> fs).
Proof.
  intros HX Hys Hd. unfold train_svm.
  io_getitem HX.
  io_ok ltac:(reflexivity).
  io_ok ltac:(by apply open_wb_run).
  erewrite io_bind_ok; [|apply (train_loop_plain _ _ _ _ ys); [done|apply lookup_insert_eq]].
  by rewrite insert_insert_eq.
Qed.

(** [train_svm] with a validation dataframe. *)
Lemma train_svm_validated train labels model_file t (fs : filesystem) X Xv ys yts :
  df_lookup train "Premise" = Some X ->
  has_columns train labels ys ->
  df_lookup t "Premise" = Some Xv ->
  has_columns t labels yts ->
  fs !! model_file <> Some Dir ->
  let scores := fold_left (fun d kv => dict_set d (fst kv) (snd kv))
                  (zip labels (zip_with (label_score X Xv) ys yts)) [] in
  train_svm train labels model_file (Some t) fs =
  (Ok (Some (dict_set scores "avg-f1-score" (round2 (np_mean (dict_values scores))))),
   <[model_file := File (dump_all (PyPipeline <$> (fit X <$> ys)))]> fs).
Proof.
  intros HX Hys HXv Hyts Hd scores. unfold train_svm.
  io_getitem HX.
  io_getitem HXv.
  io_ok ltac:(by apply open_wb_run).
  erewrite io_bind_ok;
    [|apply (train_loop_validated _ _ _ _ _ _ ys yts); [done|done|apply lookup_insert_eq]].
  by rewrite insert_insert_eq.
Qed.

End Train.

(** ** The small instance satisfies the laws *)

Lemma toy_read_dump_str s rest :
  Toy.toy_read_str (Toy.toy_dump_str s ++ rest) = Some (s, length (Toy.toy_dump_str s)).
Proof.
  induction s as [|c s IH]; simpl; [done|].
  by rewrite IH, ascii_of_byte_of_ascii.
Qed.

Lemma toy_decode_dumps (o : pyobj) (rest : list byte) :
  exists op body,
    Toy.toy_dumps o = op :: body /\
    Toy.toy_decode op (body ++ rest) = Unpickled o (length body).
Proof.
  destruct o as [svm|s|]; simpl.
  - exists x01, [if svm then x01 else x00]. split; [done|]. by destruct svm.
  - exists x02, (Toy.toy_dump_str s). split; [done|].
    unfold Toy.toy_decode. simpl. by rewrite toy_read_dump_str.
  - by exists x03, [].
Qed.

#[export] Instance toy_pickle_laws : @PickleLaws Toy.sklearn Toy.pickle.
Proof. constructor. apply toy_decode_dumps. Qed.

#[export] Instance toy_sklearn_laws : @SklearnLaws Toy.sklearn.
Proof. constructor. intros svm X. apply length_map. Qed.

(** ** Prediction: the claims *)

Lemma df_wf_lookup df key c : df_wf df -> df_lookup df key = Some c -> length c = df_index df.
Proof.
  intros Hwf Hc. apply dict_get_Some_elem in Hc.
  unfold df_wf in Hwf. rewrite Forall_forall in Hwf. apply (Hwf (key, c) Hc).
Qed.

Section PredictClaims.
Context `{PK : Pickle}.
Implicit Types (X : column) (labels : list string) (ms : list Pipeline) (d : dict column).

(** C10. For a dataset that has its text column: when the store begins with
    more valid models than there are labels (whatever follows them), the
    lookup [labels[i]] at [i = len(labels)] is out of range, and
    [predict_svm] raises IndexError and returns no table. *)
Theorem predict_svm_more_models_than_labels
    dataframe labels model_file (fs : filesystem) X f ms rest :
  df_lookup dataframe "Premise" = Some X ->
  fs !! model_file = Some (File f) ->
  reads f (PyPipeline <$> ms) rest ->
  length labels < length ms ->
  predict_svm dataframe labels model_file fs = (Raise IndexError, fs).
Proof.
  intros HX Hf Hreads Hlen.
  rewrite (predict_svm_run _ _ _ _ X f) by done.
  rewrite (load_all_svms_loop_reads _ _ _ Hreads).
  by rewrite predict_loop_overflow by lia.
Qed.

(** C1, as amended. For a dataset that has its text column: when the first
    record that is not a Pipeline comes after at most [len(labels)] valid
    models, [predict_svm] raises PickleError and returns no table, whatever
    bytes follow the record; the loop raises it whatever the generator would
    have produced next, so nothing after the record is processed. *)
Theorem predict_svm_not_Pipeline
    dataframe labels model_file (fs : filesystem) X f ms o rest :
  df_lookup dataframe "Premise" = Some X ->
  fs !! model_file = Some (File f) ->
  reads f ((PyPipeline <$> ms) ++ [o]) rest ->
  is_Pipeline o = false ->
  length ms <= length labels ->
  predict_svm dataframe labels model_file fs = (Raise (PickleError model_file), fs) /\
  forall tail d,
    predict_loop X labels model_file 0 (yields (PyPipeline <$> ms) (Yield o tail)) d =
    Raise (PickleError model_file).
Proof.
  intros HX Hf Hreads Ho Hlen.
  assert (Hloop : forall tail d,
    predict_loop X labels model_file 0 (yields (PyPipeline <$> ms) (Yield o tail)) d =
    Raise (PickleError model_file)).
  { intros tail d. rewrite predict_loop_pipelines by (simpl; lia).
    by apply predict_loop_not_Pipeline. }
  split; [|done].
  rewrite (predict_svm_run _ _ _ _ X f) by done.
  apply reads_app_inv in Hreads as (f1 & Hms & Ho').
  rewrite (load_all_svms_loop_reads _ _ _ Hms), (load_all_svms_loop_reads _ _ _ Ho').
  simpl yields. by rewrite Hloop.
Qed.


End PredictClaims.

Section TableClaims.
Context `{PK : Pickle} `{!SklearnLaws}.
Implicit Types (X : column) (labels : list string) (ms : list Pipeline) (d : dict column).

Lemma fst_zip_take labels ms : (zip labels ms).*1 = take (length ms) labels.
Proof.
  rewrite <- (zip_with_take_l pair labels ms). apply fst_zip.
  rewrite length_take. lia.
Qed.

(** A label that is not among the first [len(ms)] labels gets no entry. *)
Lemma dict_get_paired_beyond X labels ms l :
  l ∉ take (length ms) labels -> dict_get (paired_predictions X labels ms []) l = None.
Proof.
  intros Hl. rewrite dict_get_paired.
  rewrite <- fst_zip_take in Hl. apply assoc_last_None in Hl. by rewrite Hl.
Qed.

(** A label at a position that has a model gets the prediction of the
    model at the last position of that label. *)
Lemma dict_get_paired_within X labels ms j l :
  length ms = length labels -> labels !! j = Some l ->
  exists k m, labels !! k = Some l /\ ms !! k = Some m /\
    (forall k', k < k' -> labels !! k' <> Some l) /\
    dict_get (paired_predictions X labels ms []) l = Some (predict m X).
Proof.
  intros Hlen Hj. rewrite dict_get_paired.
  destruct (assoc_last (zip labels ms) l) as [m|] eqn:E.
  - apply assoc_last_Some in E as (k & Hk & Hlast).
    apply lookup_zip_with_Some in Hk as (l' & m' & [= <- <-] & Hl & Hm).
    exists k, m. split_and!; [done|done| |done].
    intros k' Hlt Hk'. destruct (lookup_lt_is_Some_2 ms k') as [m' Hm'].
    { rewrite Hlen. by apply lookup_lt_Some in Hk'. }
    apply (Hlast k' m' Hlt). apply lookup_zip_with_Some. by exists l, m'.
  - apply assoc_last_None in E. rewrite fst_zip in E by lia.
    by apply list_elem_of_lookup_2 in Hj.
Qed.

Lemma df_columns_fmap (g : string -> column) labels n :
  df_columns (mkDataFrame n ((fun l => (l, g l)) <$> labels)) = labels.
Proof.
  unfold df_columns. simpl. rewrite <- list_fmap_compose. apply list_fmap_id.
Qed.

(** C3, as amended. For a dataset that has its text column, a label list that
    is not empty and a store of exactly [len(labels)] valid models:
    [predict_svm] returns a table whose columns are the labels in order, with
    as many rows as the dataset, every column of that height; the column at
    each position holds what the model paired last with that position's label
    predicts on the text column, row by row (for labels without repeats, the
    model at the same position). *)
Theorem predict_svm_table dataframe labels model_file (fs : filesystem) X f ms :
  df_wf dataframe ->
  df_lookup dataframe "Premise" = Some X ->
  fs !! model_file = Some (File f) ->
  store_records f (PyPipeline <$> ms) ->
  length ms = length labels ->
  labels <> [] ->
  exists table,
    predict_svm dataframe labels model_file fs = (Ok table, fs) /\
    df_columns table = labels /\
    df_index table = df_index dataframe /\
    df_wf table /\
    forall j l, labels !! j = Some l ->
      exists k m, labels !! k = Some l /\ ms !! k = Some m /\
        (forall k', k < k' -> labels !! k' <> Some l) /\
        df_data table !! j = Some (l, predict m X).
Proof.
  intros Hwf HX Hf Hstore Hlen Hne.
  pose proof (predict_svm_covered dataframe labels model_file fs X f ms HX Hf Hstore) as Hrun.
  rewrite Hrun by lia. clear Hrun.
  assert (Hrows : match ms with [] => 0 | _ => length X end = df_index dataframe).
  { destruct ms; [by destruct labels|]. by apply (df_wf_lookup _ "Premise"). }
  rewrite Hrows. eexists. split; [done|]. split_and!.
  - apply df_columns_fmap.
  - done.
  - unfold df_wf. simpl. apply Forall_fmap, Forall_forall. intros l Hl. simpl.
    apply list_elem_of_lookup_1 in Hl as [j Hj].
    destruct (dict_get_paired_within X labels ms j l Hlen Hj) as (k & m & _ & _ & _ & Hd).
    rewrite Hd. simpl. rewrite predict_length.
    by apply (df_wf_lookup _ "Premise").
  - intros j l Hj.
    destruct (dict_get_paired_within X labels ms j l Hlen Hj) as (k & m & Hk & Hm & Hlast & Hd).
    exists k, m. split_and!; [done|done|done|].
    cbn [df_data]. rewrite list_lookup_fmap, Hj. cbn [fmap option_fmap option_map].
    by rewrite Hd.
Qed.

(** The labels from position [len(ms)] on take no part in the pairing. *)
Lemma paired_predictions_take X labels ms d :
  paired_predictions X (take (length ms) labels) ms d = paired_predictions X labels ms d.
Proof. unfold paired_predictions. by rewrite (zip_with_take_l pair labels ms). Qed.

(** C8. With fewer valid models in the store than labels (and a dataset
    that has its text column), the loop ends normally at the end of the
    store, having paired the models with the first [len(ms)] labels only: the
    labels from position [len(ms)] on take no part in it, and a label that is
    not among the first [len(ms)] gets no entry. [predict_svm] raises
    nothing and returns a table with a column per label, where such a label
    (for labels without repeats: every label at a position from [len(ms)]
    on) has a column of NaN. *)
Theorem predict_svm_fewer_models dataframe labels model_file (fs : filesystem) X f ms :
  df_lookup dataframe "Premise" = Some X ->
  fs !! model_file = Some (File f) ->
  store_records f (PyPipeline <$> ms) ->
  length ms < length labels ->
  predict_loop X labels model_file 0 (load_all_svms_loop f) [] =
    Ok (paired_predictions X (take (length ms) labels) ms []) /\
  (forall l, l ∉ take (length ms) labels ->
     dict_get (paired_predictions X (take (length ms) labels) ms []) l = None) /\
  exists table,
    predict_svm dataframe labels model_file fs = (Ok table, fs) /\
    df_columns table = labels /\
    (forall j l, labels !! j = Some l -> l ∉ take (length ms) labels ->
       df_data table !! j = Some (l, replicate (df_index table) VNaN)) /\
    (NoDup labels -> forall j l, length ms <= j -> labels !! j = Some l ->
       df_data table !! j = Some (l, replicate (df_index table) VNaN)).
Proof.
  intros HX Hf Hstore Hlen.
  assert (Hnan : forall rows j l, labels !! j = Some l -> l ∉ take (length ms) labels ->
    ((fun l => (l, default (replicate rows VNaN)
                     (dict_get (paired_predictions X labels ms []) l))) <$> labels) !! j =
    Some (l, replicate rows VNaN)).
  { intros rows j l Hj Hl. rewrite list_lookup_fmap, Hj. cbn [fmap option_fmap option_map].
    by rewrite dict_get_paired_beyond. }
  rewrite paired_predictions_take. split_and!.
  - rewrite (load_all_svms_loop_store _ _ Hstore).
    rewrite predict_loop_pipelines by (simpl; lia). simpl. by rewrite drop_0.
  - apply dict_get_paired_beyond.
  - eexists. split_and!.
    + apply (predict_svm_covered _ _ _ _ X f ms); [done|done|done|lia].
    + apply df_columns_fmap.
    + intros j l Hj Hl. by apply Hnan.
    + intros Hnd j l Hge Hj. apply Hnan; [done|].
      intros (i & Hi & Hlt)%elem_of_take.
      assert (i = j) by by apply (NoDup_lookup labels i j l). lia.
Qed.

End TableClaims.

(** ** The codec: the claims *)

Section CodecClaims.
Context `{PK : Pickle}.

(** Reading goes on until the first [pickle.load] that raises. *)
Lemma reads_until_raise f :
  exists os f' e, reads f os f' /\ fst (pickle_load f') = Raise e.
Proof.
  remember (length f) as n eqn:Hn. revert f Hn.
  induction n as [n IH] using lt_wf_ind. intros f ->.
  destruct (pickle_load f) as [[o|e] f1] eqn:Hload.
  - destruct (IH (length f1) (pickle_load_shorter _ _ _ Hload) f1 eq_refl)
      as (os & f' & e & Hreads & He).
    exists (o :: os), f', e. split; [|done]. econstructor; eauto.
  - exists [], f, e. split; [constructor|]. by rewrite Hload.
Qed.

Lemma load_all_svms_loop_raise f e :
  fst (pickle_load f) = Raise e -> e <> EOFError -> load_all_svms_loop f = Throw e.
Proof.
  intros He Hne. rewrite load_all_svms_loop_step.
  destruct (pickle_load f) as [r f']; simpl in He; subst r. by destruct e.
Qed.

(** C7. [load_all_svms] opens the store and yields the records that
    successive [pickle.load]s return, in order, up to the first load that
    raises: when that is EOFError (as it is at the end of the file) the
    generator returns normally; any other exception is raised to the caller. The
    loop ends on every file. *)
Theorem load_all_svms_until_eof model_file (fs : filesystem) f :
  load_all_svms model_file (<[model_file := File f]> fs) =
    (Ok (load_all_svms_loop f), <[model_file := File f]> fs) /\
  fst (pickle_load []) = Raise EOFError /\
  exists os f' e,
    reads f os f' /\ fst (pickle_load f') = Raise e /\
    (e = EOFError -> load_all_svms_loop f = yields os Return) /\
    (e <> EOFError -> load_all_svms_loop f = yields os (Throw e)).
Proof.
  split; [apply load_all_svms_open, lookup_insert_eq|]. split; [done|].
  destruct (reads_until_raise f) as (os & f' & e & Hreads & He).
  exists os, f', e. split_and!; [done|done| |].
  - intros ->. rewrite (load_all_svms_loop_reads _ _ _ Hreads).
    by rewrite load_all_svms_loop_eof.
  - intros Hne. rewrite (load_all_svms_loop_reads _ _ _ Hreads).
    by rewrite (load_all_svms_loop_raise _ e).
Qed.

Lemma write_store_run model_file (fs : filesystem) os :
  fs !! model_file <> Some Dir ->
  write_store model_file os fs = (Ok tt, <[model_file := File (dump_all os)]> fs).
Proof.
  intros Hd. unfold write_store.
  io_ok ltac:(by apply open_wb_run).
  erewrite dump_loop_run; [|apply lookup_insert_eq].
  by rewrite insert_insert_eq.
Qed.


End CodecClaims.

(** ** Training: the claims *)

Lemma has_columns_lookup df labels ys n l :
  has_columns df labels ys -> labels !! n = Some l ->
  exists y, df_lookup df l = Some y /\ ys !! n = Some y.
Proof.
  intros Hys Hl. destruct (Forall2_lookup_l _ _ _ _ _ Hys Hl) as (y & Hy & Hlook).
  by exists y.
Qed.

Lemma has_columns_length df labels ys : has_columns df labels ys -> length ys = length labels.
Proof. intros Hys. symmetry. by apply Forall2_length in Hys. Qed.

Section TrainInv.
Context `{PK : Pickle} {NM : Numeric}.

(** The loop ends normally only when every label is a column of the
    training dataframe; the store then has the fitted pipelines appended. *)
Lemma train_loop_ok_inv train X model_file validation labels :
  forall scores (fs : filesystem) c r fs',
  fs !! model_file = Some (File c) ->
  train_loop train X model_file validation labels scores fs = (Ok r, fs') ->
  exists ys,
    has_columns train labels ys /\
    fs' = <[model_file := File (c ++ dump_all (PyPipeline <$> (fit X <$> ys)))]> fs.
Proof.
  induction labels as [|l labels IH]; intros scores fs c r fs' Hc Hrun.
  - exists []. split; [constructor|]. injection Hrun as _ <-.
    unfold dump_all. simpl. rewrite app_nil_r. by rewrite insert_id.
  - cbn [train_loop] in Hrun. unfold mbind at 1, IO_bind, io_lift, df_getitem in Hrun.
    destruct (df_lookup train l) as [y|] eqn:Hy; [|done].
    unfold mbind at 1, IO_bind in Hrun.
    match type of Hrun with (match ?r with Ok _ => _ | Raise _ => _ end) = _ =>
      destruct r as [scores'|]; [|done] end.
    erewrite io_bind_ok in Hrun; [|by apply pickle_dump_run].
    destruct (IH _ _ _ _ _ (lookup_insert_eq _ _ _) Hrun) as (ys & Hys & ->).
    exists (y :: ys). split; [by constructor|].
    by rewrite insert_insert_eq, !fmap_cons, dump_all_cons, app_assoc.
Qed.

(** [train_svm] returns normally only when the training dataframe has the
    text column and a column for every label, and the store can be opened;
    the store then holds the fitted pipelines and nothing else. *)
Lemma train_svm_ok_inv train labels model_file test (fs : filesystem) r fs' :
  train_svm train labels model_file test fs = (Ok r, fs') ->
  exists X ys,
    df_lookup train "Premise" = Some X /\ has_columns train labels ys /\
    fs !! model_file <> Some Dir /\
    fs' = <[model_file := File (dump_all (PyPipeline <$> (fit X <$> ys)))]> fs.
Proof.
  unfold train_svm. intros Hrun.
  unfold mbind at 1, IO_bind, io_lift, df_getitem in Hrun.
  destruct (df_lookup train "Premise") as [X|] eqn:HX; [|done].
  unfold mbind at 1, IO_bind in Hrun.
  match type of Hrun with (match ?r with Ok _ => _ | Raise _ => _ end) = _ =>
    destruct r as [validation|]; [|done] end.
  assert (Hd : fs !! model_file <> Some Dir).
  { intros Hd. unfold mbind at 1, IO_bind, open_wb in Hrun. by rewrite Hd in Hrun. }
  erewrite io_bind_ok in Hrun; [|by apply open_wb_run].
  unfold mbind at 1, IO_bind in Hrun.
  destruct (train_loop train X model_file validation labels [] _) as [[scores|] fs1] eqn:Hloop;
    [|done].
  destruct (train_loop_ok_inv _ _ _ _ _ _ _ _ _ _ (lookup_insert_eq _ _ _) Hloop)
    as (ys & Hys & Hfs1).
  exists X, ys. split_and!; [done|done|done|].
  assert (fs' = fs1) as -> by (by destruct validation; injection Hrun as _ <-).
  by rewrite Hfs1, insert_insert_eq.
Qed.

End TrainInv.

Lemma dict_set_fresh {V} (d : dict V) k v : k ∉ dict_keys d -> dict_set d k v = d ++ [(k, v)].
Proof.
  unfold dict_keys. induction d as [|[k' v'] d IH]; csimpl; [done|].
  intros [Hne Hk]%not_elem_of_cons.
  assert (String.eqb k' k = false) as -> by (apply String.eqb_neq; congruence).
  by rewrite IH.
Qed.

(** Setting distinct new keys one after the other appends them in order. *)
Lemma fold_dict_set_fresh {V} (ks : list string) (vs : list V) : forall d : dict V,
  NoDup (dict_keys d ++ ks) -> length ks = length vs ->
  fold_left (fun d kv => dict_set d (fst kv) (snd kv)) (zip ks vs) d = d ++ zip ks vs.
Proof.
  revert vs. induction ks as [|k ks IH]; intros [|v vs] d Hnd Hlen; simplify_eq/=.
  - by rewrite app_nil_r.
  - assert (k ∉ dict_keys d).
    { apply NoDup_app in Hnd as (_ & Hdis & _). intros Hk. apply (Hdis k Hk), list_elem_of_here. }
    rewrite dict_set_fresh by done. rewrite IH; [by rewrite <- app_assoc| |done].
    unfold dict_keys in *. rewrite fmap_app. simpl. by rewrite <- app_assoc.
Qed.

Section TrainClaims.
Context `{PK : Pickle}.
Implicit Types (X Xv : column) (labels : list string) (ys yts : list column).

(** What [train_svm] leaves in the file system is what [write_store] writes
    for the fitted pipelines. *)
Lemma train_svm_writes_store {NM : Numeric} train labels model_file test (fs : filesystem) r fs' :
  train_svm train labels model_file test fs = (Ok r, fs') ->
  exists X ys,
    df_lookup train "Premise" = Some X /\ has_columns train labels ys /\
    write_store model_file (PyPipeline <$> (fit X <$> ys)) fs = (Ok tt, fs').
Proof.
  intros Hrun. destruct (train_svm_ok_inv _ _ _ _ _ _ _ Hrun) as (X & ys & HX & Hys & Hd & ->).
  exists X, ys. split_and!; [done|done|]. by apply write_store_run.
Qed.

(** C6. When [train_svm] has returned, the store holds the fitted pipelines,
    one record per label in the order of the labels and nothing else (no
    count, no label names): the N-th record is the pipeline fitted on the column
    of the N-th label. [load_all_svms] yields them in that order, the loop of
    [predict_svm] pairs them with the same labels by position, and so the
    entry of each label is the prediction of the pipeline fitted for it. *)
Theorem train_svm_store_order `{!PickleLaws} {NM : Numeric}
    train labels model_file test (fs : filesystem) r fs' :
  train_svm train labels model_file test fs = (Ok r, fs') ->
  exists X ys f,
    df_lookup train "Premise" = Some X /\ has_columns train labels ys /\
    fs' !! model_file = Some (File f) /\
    f = dump_all (PyPipeline <$> (fit X <$> ys)) /\
    load_all_svms model_file fs' = (Ok (yields (PyPipeline <$> (fit X <$> ys)) Return), fs') /\
    (forall n l, labels !! n = Some l ->
       exists y, df_lookup train l = Some y /\ (fit X <$> ys) !! n = Some (fit X y)) /\
    (forall Xp, predict_loop Xp labels model_file 0 (load_all_svms_loop f) [] =
                Ok (paired_predictions Xp labels (fit X <$> ys) [])) /\
    (forall Xp l y, l ∈ labels -> df_lookup train l = Some y ->
       dict_get (paired_predictions Xp labels (fit X <$> ys) []) l =
       Some (predict (fit X y) Xp)).
Proof.
  intros Hrun. destruct (train_svm_ok_inv _ _ _ _ _ _ _ Hrun) as (X & ys & HX & Hys & Hd & ->).
  exists X, ys, (dump_all (PyPipeline <$> (fit X <$> ys))).
  pose proof (store_records_dump_all (PyPipeline <$> (fit X <$> ys))) as Hstore.
  pose proof (has_columns_length _ _ _ Hys) as Hlen.
  split_and!; [done|done|apply lookup_insert_eq|done| | | |].
  - erewrite load_all_svms_open; [|apply lookup_insert_eq].
    by rewrite (load_all_svms_loop_store _ _ Hstore).
  - intros n l Hl. destruct (has_columns_lookup _ _ _ _ _ Hys Hl) as (y & Hy & Hn).
    exists y. split; [done|]. by rewrite list_lookup_fmap, Hn.
  - intros Xp. rewrite (load_all_svms_loop_store _ _ Hstore).
    rewrite predict_loop_pipelines by (simpl; rewrite length_fmap; lia).
    simpl. by rewrite drop_0.
  - intros Xp l y [n Hn]%list_elem_of_lookup_1 Hy.
    destruct (dict_get_paired_within Xp labels (fit X <$> ys) n l) as (k & m & Hk & Hm & _ & ->);
      [by rewrite length_fmap|done|].
    destruct (has_columns_lookup _ _ _ _ _ Hys Hk) as (y' & Hy' & Hyk).
    rewrite list_lookup_fmap, Hyk in Hm. simplify_eq/=. done.
Qed.

(** C4. With distinct labels, none of them named avg-f1-score (and a training
    and a validation dataframe that have the text column and the label
    columns, and a store that can be opened): without a validation dataframe
    [train_svm] returns None, not a dictionary; with one it returns a
    dictionary of [len(labels) + 1] entries, the labels in order and then
    avg-f1-score. *)
Theorem train_svm_returns {NM : Numeric}
    train labels model_file test (fs : filesystem) X ys Xv yts :
  df_lookup train "Premise" = Some X ->
  has_columns train labels ys ->
  df_lookup test "Premise" = Some Xv ->
  has_columns test labels yts ->
  fs !! model_file <> Some Dir ->
  NoDup labels ->
  "avg-f1-score" ∉ labels ->
  fst (train_svm train labels model_file None fs) = Ok None /\
  exists report,
    fst (train_svm train labels model_file (Some test) fs) = Ok (Some report) /\
    length report = length labels + 1 /\
    dict_keys report = labels ++ ["avg-f1-score"].
Proof.
  intros HX Hys HXv Hyts Hd Hnd Havg. split.
  { by rewrite (train_svm_plain _ _ _ _ X ys). }
  rewrite (train_svm_validated _ _ _ _ _ X Xv ys yts) by done.
  eexists. split; [done|].
  assert (Hlen : length labels = length (zip_with (label_score X Xv) ys yts)).
  { rewrite length_zip_with_l_eq; [by rewrite (has_columns_length _ _ _ Hys)|].
    by rewrite (has_columns_length _ _ _ Hys), (has_columns_length _ _ _ Hyts). }
  rewrite fold_dict_set_fresh by done. simpl.
  rewrite dict_set_fresh by (unfold dict_keys; by rewrite fst_zip by lia).
  split.
  - rewrite length_app, length_zip_with_l_eq by done. done.
  - unfold dict_keys. rewrite fmap_app, fst_zip by lia. done.
Qed.

End TrainClaims.

Lemma dict_keys_is_Some {V} (d : dict V) k : k ∈ dict_keys d <-> is_Some (dict_get d k).
Proof.
  destruct (dict_get d k) as [v|] eqn:E.
  - split; [by eexists|]. intros _. apply dict_get_Some_elem in E.
    unfold dict_keys. apply list_elem_of_fmap. by exists (k, v).
  - apply dict_get_None in E. split; [done|]. by intros [? ?].
Qed.

Section ScoreReport.
Context `{PK : Pickle}.
Implicit Types (X Xv : column) (labels : list string) (ys yts : list column).

(** The recorded score of each label, whatever the repeats among the labels. *)
Lemma dict_get_scores {NM : Numeric} train test labels X Xv ys yts l y yt :
  has_columns train labels ys ->
  has_columns test labels yts ->
  l ∈ labels -> df_lookup train l = Some y -> df_lookup test l = Some yt ->
  dict_get (fold_left (fun d kv => dict_set d (fst kv) (snd kv))
              (zip labels (zip_with (label_score X Xv) ys yts)) []) l =
  Some (label_score X Xv y yt).
Proof.
  intros Hys Hyts Hl Hy Hyt. rewrite dict_get_fold_set.
  assert (Hlen : length labels = length (zip_with (label_score X Xv) ys yts)).
  { rewrite length_zip_with_l_eq; [by rewrite (has_columns_length _ _ _ Hys)|].
    by rewrite (has_columns_length _ _ _ Hys), (has_columns_length _ _ _ Hyts). }
  destruct (assoc_last _ l) as [v|] eqn:E.
  - apply assoc_last_Some in E as (i & Hi & _).
    apply lookup_zip_with_Some in Hi as (l' & v' & [= <- <-] & Hli & Hvi).
    apply lookup_zip_with_Some in Hvi as (y' & yt' & -> & Hyi & Hyti).
    destruct (has_columns_lookup _ _ _ _ _ Hys Hli) as (y1 & Hy1 & Hy1i).
    destruct (has_columns_lookup _ _ _ _ _ Hyts Hli) as (yt1 & Hyt1 & Hyt1i).
    by simplify_eq.
  - apply assoc_last_None in E. by rewrite fst_zip in E by lia.
Qed.

(** C5, as amended. When no label is named avg-f1-score, the report of a
    training with validation maps each label to the F1 score of its
    pipeline on the validation dataframe, rounded to two decimals, and
    avg-f1-score to the mean of the recorded (rounded) scores, rounded to two
    decimals; the recorded scores are those of the labels, in the order of the
    labels when these are distinct. In binary64 arithmetic, with recorded
    scores 0.80 for [a] and 0.60 for [b] and no other label, the report is
    a: 0.80, b: 0.60, avg-f1-score: 0.70. *)
Theorem train_svm_score_report :
  (forall (NM : Numeric) train labels model_file test (fs : filesystem) X ys Xv yts,
     df_lookup train "Premise" = Some X ->
     has_columns train labels ys ->
     df_lookup test "Premise" = Some Xv ->
     has_columns test labels yts ->
     fs !! model_file <> Some Dir ->
     "avg-f1-score" ∉ labels ->
     exists scores report,
       fst (train_svm train labels model_file (Some test) fs) = Ok (Some report) /\
       report = dict_set scores "avg-f1-score" (round2 (np_mean (dict_values scores))) /\
       (forall l, l ∈ dict_keys scores <-> l ∈ labels) /\
       (forall l y yt, l ∈ labels -> df_lookup train l = Some y -> df_lookup test l = Some yt ->
          dict_get scores l = Some (label_score X Xv y yt) /\
          dict_get report l = Some (label_score X Xv y yt)) /\
       dict_get report "avg-f1-score" = Some (round2 (np_mean (dict_values scores))) /\
       (NoDup labels -> dict_values scores = zip_with (label_score X Xv) ys yts)) /\
  (forall train model_file test (fs : filesystem) X ya yb Xv yta ytb,
     df_lookup train "Premise" = Some X ->
     df_lookup train "a" = Some ya -> df_lookup train "b" = Some yb ->
     df_lookup test "Premise" = Some Xv ->
     df_lookup test "a" = Some yta -> df_lookup test "b" = Some ytb ->
     fs !! model_file <> Some Dir ->
     label_score (NM := Binary64.numeric) X Xv ya yta = Binary64.d0_80 ->
     label_score (NM := Binary64.numeric) X Xv yb ytb = Binary64.d0_60 ->
     fst (train_svm (NM := Binary64.numeric) train ["a"; "b"] model_file (Some test) fs) =
     Ok (Some [("a", Binary64.d0_80); ("b", Binary64.d0_60);
               ("avg-f1-score", Binary64.d0_70)])).
Proof.
  split.
  - intros NM train labels model_file test fs X ys Xv yts HX Hys HXv Hyts Hd Havg.
    rewrite (train_svm_validated _ _ _ _ _ X Xv ys yts) by done.
    pose (scores := fold_left (fun (d : dict float) kv => dict_set d (fst kv) (snd kv))
                      (zip labels (zip_with (label_score X Xv) ys yts)) []).
    assert (Hlen : length labels = length (zip_with (label_score X Xv) ys yts)).
    { rewrite length_zip_with_l_eq; [by rewrite (has_columns_length _ _ _ Hys)|].
      by rewrite (has_columns_length _ _ _ Hys), (has_columns_length _ _ _ Hyts). }
    exists scores. eexists. split_and!; [done|done| | | |].
    + intros l. rewrite dict_keys_is_Some. subst scores. rewrite dict_get_fold_set.
      destruct (assoc_last _ l) as [v|] eqn:E.
      * split; [|by eexists]. intros _.
        apply assoc_last_Some in E as (i & Hi & _).
        apply lookup_zip_with_Some in Hi as (l' & v' & [= <- <-] & Hli & _).
        by apply list_elem_of_lookup_2 in Hli.
      * apply assoc_last_None in E. rewrite fst_zip in E by lia.
        split; [by intros [? ?]|done].
    + intros l y yt Hl Hy Hyt.
      pose proof (dict_get_scores train test labels X Xv ys yts l y yt Hys Hyts Hl Hy Hyt) as Hs.
      split; [done|]. rewrite dict_get_set_ne; [done|]. by intros <-.
    + apply dict_get_set_eq.
    + intros Hnd. subst scores.
      rewrite fold_dict_set_fresh by done. simpl. unfold dict_values. by rewrite snd_zip by lia.
  - intros train model_file test fs X ya yb Xv yta ytb HX Hya Hyb HXv Hyta Hytb Hd Ha Hb.
    rewrite (train_svm_validated _ _ _ _ _ X Xv [ya; yb] [yta; ytb]);
      [|done|by repeat constructor|done|by repeat constructor|done].
    cbn [fst zip_with fold_left snd]. rewrite Ha, Hb. by vm_compute.
Qed.

End ScoreReport.

(** * Further properties of the code *)

(** ** [predict_svm]: what a returned table implies, and the failures *)

Section PredictMore.
Context `{PK : Pickle}.
Implicit Types (X : column) (labels : list string) (ms : list Pipeline) (d : dict column).





(** X2. A record that [pickle.load] cannot read, met after valid models
    that the labels cover, is not skipped: the exception of the load, any but
    EOFError, comes out of [predict_svm], and there is no table. *)
Theorem predict_svm_corrupt_record
    dataframe labels model_file (fs : filesystem) X f ms f' e :
  df_lookup dataframe "Premise" = Some X ->
  fs !! model_file = Some (File f) ->
  reads f (PyPipeline <$> ms) f' ->
  fst (pickle_load f') = Raise e ->
  e <> EOFError ->
  length ms <= length labels ->
  predict_svm dataframe labels model_file fs = (Raise e, fs).
Proof.
  intros HX Hf Hreads He Hne Hlen.
  rewrite (predict_svm_run _ _ _ _ X f) by done.
  rewrite (load_all_svms_loop_reads _ _ _ Hreads), (load_all_svms_loop_raise _ e) by done.
  by rewrite predict_loop_pipelines by (simpl; lia).
Qed.

(** X3. On a store that is an empty file [predict_svm] raises nothing: it
    returns a table with a column per label and no row, whatever the
    number of rows of the dataframe. *)
Theorem predict_svm_empty_store dataframe labels model_file (fs : filesystem) X :
  df_lookup dataframe "Premise" = Some X ->
  fs !! model_file = Some (File []) ->
  predict_svm dataframe labels model_file fs =
  (Ok (mkDataFrame 0 ((fun l => (l, [])) <$> labels)), fs).
Proof.
  intros HX Hf. rewrite (predict_svm_run _ _ _ _ X []) by done.
  rewrite load_all_svms_loop_eof by done. simpl.
  unfold mbind, result_bind, pd_DataFrame. by rewrite omap_dict_get_nil.
Qed.

(** X4. [predict_svm] reads the text column before it opens the store:
    without the column it raises KeyError, whatever the store is, even
    absent; with the column and no file at the store path it raises
    FileNotFoundError. *)
Theorem predict_svm_rejected dataframe labels model_file (fs : filesystem) :
  (df_lookup dataframe "Premise" = None ->
   predict_svm dataframe labels model_file fs = (Raise (KeyError "Premise"), fs)) /\
  (is_Some (df_lookup dataframe "Premise") -> fs !! model_file = None ->
   predict_svm dataframe labels model_file fs = (Raise (FileNotFoundError model_file), fs)).
Proof.
  split.
  - intros HX. unfold predict_svm, mbind at 1, IO_bind, io_lift, df_getitem. by rewrite HX.
  - intros [X HX] Hf. unfold predict_svm. io_getitem HX.
    unfold mbind at 1, IO_bind, load_all_svms, mbind at 1, IO_bind, open_rb. by rewrite Hf.
Qed.

End PredictMore.

(** ** [train_svm]: what it writes, where, and what a failure leaves *)

Section TrainMore.
Context `{PK : Pickle} {NM : Numeric}.
Implicit Types (X Xv : column) (labels pre post : list string) (ys yts : list column).

(** The loop over [pre ++ post] is the loop over [pre] and then, when this
    one has ended normally, the loop over [post] from the scores and the
    store it has left. *)
Lemma train_loop_app train X model_file validation pre post :
  forall scores (fs : filesystem),
  train_loop train X model_file validation (pre ++ post) scores fs =
  match train_loop train X model_file validation pre scores fs with
  | (Ok scores', fs') => train_loop train X model_file validation post scores' fs'
  | (Raise e, fs') => (Raise e, fs')
  end.
Proof.
  induction pre as [|l pre IH]; intros scores fs; [done|].
  cbn [app train_loop]. unfold mbind at 1 3, IO_bind, io_lift.
  destruct (df_getitem train l) as [y|e]; [|done].
  unfold mbind at 1 3, IO_bind.
  match goal with |- context [match ?r with Ok _ => _ | Raise _ => _ end] =>
    destruct r as [scores'|e] end; [|done].
  unfold mbind at 1 2, IO_bind.
  destruct (pickle_dump _ model_file fs) as [[[]|e] fs1]; [|done]. apply IH.
Qed.

(** The loop over labels that are columns of the training dataframe and of
    the validation dataframe, when there is one, followed by more labels. *)
Lemma train_loop_prefix train X model_file validation pre post ys scores
    (fs : filesystem) c :
  has_columns train pre ys ->
  match validation with
  | Some (t, _) => exists yts, has_columns t pre yts
  | None => True
  end ->
  fs !! model_file = Some (File c) ->
  exists scores',
    train_loop train X model_file validation (pre ++ post) scores fs =
    train_loop train X model_file validation post scores'
      (<[model_file := File (c ++ dump_all (PyPipeline <$> (fit X <$> ys)))]> fs).
Proof.
  intros Hys Hval Hc. rewrite train_loop_app. destruct validation as [[t Xv]|].
  - destruct Hval as [yts Hyts].
    rewrite (train_loop_validated _ _ _ _ _ _ ys yts _ _ c) by done. by eexists.
  - rewrite (train_loop_plain _ _ _ _ ys _ _ c) by done. by eexists.
Qed.

(** What the loop does to the file system, whatever its outcome: it appends
    to the store, by an amount that depends neither on the file system nor on
    what the store held. *)
Lemma train_loop_effect train X model_file validation labels : forall scores,
  exists r w, forall (fs : filesystem) c,
    fs !! model_file = Some (File c) ->
    train_loop train X model_file validation labels scores fs =
    (r, <[model_file := File (c ++ w)]> fs).
Proof.
  assert (Hnone : forall (r : result (dict float)), exists r' (w : list byte),
    forall (fs : filesystem) c, fs !! model_file = Some (File c) ->
      (r, fs) = (r', <[model_file := File (c ++ w)]> fs)).
  { intros r. exists r, []. intros fs c Hc. by rewrite app_nil_r, insert_id. }
  induction labels as [|l labels IH]; intros scores; cbn [train_loop].
  - apply Hnone.
  - unfold mbind at 1, IO_bind, io_lift.
    destruct (df_getitem train l) as [y|e]; [|apply Hnone].
    unfold mbind at 1, IO_bind.
    match goal with |- context [match ?r with Ok _ => _ | Raise _ => _ end] =>
      destruct r as [scores'|e] end; [|apply Hnone].
    destruct (IH scores') as (r & w & Hrun).
    exists r, (pickle_dumps (PyPipeline (fit X y)) ++ w). intros fs c Hc.
    io_ok ltac:(by apply pickle_dump_run).
    rewrite (Hrun _ (c ++ pickle_dumps (PyPipeline (fit X y)))) by apply lookup_insert_eq.
    by rewrite insert_insert_eq, app_assoc.
Qed.

(** The outcome of [train_svm] in every case: either the call is turned
    down before the store is opened, by an exception that does not depend on
    the file system, or it opens the store, which fails on a directory, and
    leaves in it bytes [w] that do not depend on the file system. *)
Lemma train_svm_effect train labels model_file test :
  (exists e, forall fs : filesystem,
     train_svm train labels model_file test fs = (Raise e, fs)) \/
  (exists r w, forall fs : filesystem,
     train_svm train labels model_file test fs =
     match fs !! model_file with
     | Some Dir => (Raise (IsADirectoryError model_file), fs)
     | _ => (r, <[model_file := File w]> fs)
     end).
Proof.
  unfold train_svm.
  destruct (df_getitem train "Premise") as [X|e];
    [|left; exists e; intros fs; by unfold mbind at 1, IO_bind, io_lift].
  match goal with |- context [io_lift (match test with Some _ => _ | None => _ end)] =>
    destruct (match test with
              | Some t => valid_input_vector ← df_getitem t "Premise";
                          mret (Some (t, valid_input_vector))
              | None => mret None
              end : result (option (DataFrame * column))) as [validation|e] end;
    [|left; exists e; intros fs; unfold mbind at 1, IO_bind, io_lift;
      by unfold mbind at 1, IO_bind].
  right. destruct (train_loop_effect train X model_file validation labels [])
    as (r & w & Hloop).
  exists (match r with
          | Ok f1_scores =>
              match validation with
              | Some _ =>
                  Ok (Some (dict_set f1_scores "avg-f1-score"
                              (round2 (np_mean (dict_values f1_scores)))))
              | None => Ok None
              end
          | Raise e => Raise e
          end), w.
  intros fs. unfold mbind at 1, IO_bind, io_lift.
  unfold mbind at 1, IO_bind. unfold mbind at 1, IO_bind, open_wb.
  destruct (fs !! model_file) as [[c|]|] eqn:Hc; [|done|];
    (unfold mbind at 1, IO_bind; rewrite (Hloop _ []) by apply lookup_insert_eq;
     rewrite insert_insert_eq; simpl; destruct r; [by destruct validation|done]).
Qed.


(** X6. [train_svm] touches no file but the store: every other path holds
    after the call what it held before, whether the call returns or raises. *)
Theorem train_svm_other_files train labels model_file test (fs : filesystem) other :
  other <> model_file ->
  snd (train_svm train labels model_file test fs) !! other = fs !! other.
Proof.
  intros Hne. destruct (train_svm_effect train labels model_file test)
    as [[e Hrun]|(r & w & Hrun)]; rewrite Hrun; [done|].
  destruct (fs !! model_file) as [[c|]|]; simpl; [|done|]; by rewrite lookup_insert_ne.
Qed.

Lemma validation_columns_nil test labels :
  validation_columns test labels -> validation_columns test [].
Proof.
  destruct test as [t|]; [|done]. intros [? _]. split; [done|]. exists []. constructor.
Qed.

(** [train_svm] once the text columns have been found and the store opened. *)
Lemma train_svm_enter train labels model_file test (fs : filesystem) X :
  df_lookup train "Premise" = Some X ->
  validation_columns test [] ->
  fs !! model_file <> Some Dir ->
  exists validation,
    match test, validation with
    | Some t, Some (t', Xv) => t' = t /\ df_lookup t "Premise" = Some Xv
    | None, None => True
    | _, _ => False
    end /\
    train_svm train labels model_file test fs =
    match train_loop train X model_file validation labels [] (<[model_file := File []]> fs) with
    | (Ok f1_scores, fs') =>
        (match validation with
         | Some _ =>
             Ok (Some (dict_set f1_scores "avg-f1-score"
                         (round2 (np_mean (dict_values f1_scores)))))
         | None => Ok None
         end, fs')
    | (Raise e, fs') => (Raise e, fs')
    end.
Proof.
  intros HX Hval Hd. unfold train_svm. io_getitem HX.
  destruct test as [t|].
  - destruct Hval as [[Xv HXv] _]. exists (Some (t, Xv)). split; [done|].
    io_getitem HXv. io_ok ltac:(by apply open_wb_run).
    unfold mbind at 1, IO_bind. by destruct (train_loop _ _ _ _ _ _ _) as [[?|?] ?].
  - exists None. split; [done|].
    io_ok ltac:(reflexivity). io_ok ltac:(by apply open_wb_run).
    unfold mbind at 1, IO_bind. by destruct (train_loop _ _ _ _ _ _ _) as [[?|?] ?].
Qed.

(** [train_svm] up to a label that is no column of the training dataframe. *)
Lemma train_svm_stops_at_label
    train pre l post model_file test (fs : filesystem) X ys :
  df_lookup train "Premise" = Some X ->
  has_columns train pre ys ->
  df_lookup train l = None ->
  validation_columns test pre ->
  fs !! model_file <> Some Dir ->
  train_svm train (pre ++ l :: post) model_file test fs =
  (Raise (KeyError l),
   <[model_file := File (dump_all (PyPipeline <$> (fit X <$> ys)))]> fs).
Proof.
  intros HX Hys Hl Hval Hd.
  destruct (train_svm_enter train (pre ++ l :: post) model_file test fs X HX)
    as (validation & Hv & ->); [by apply (validation_columns_nil _ pre)|done|].
  destruct (train_loop_prefix train X model_file validation pre (l :: post) ys []
              (<[model_file := File []]> fs) []) as [scores' ->];
    [done| |apply lookup_insert_eq|].
  { destruct test as [t|], validation as [[t' Xv]|]; try done.
    destruct Hv as [-> _]. by destruct Hval as [_ ?]. }
  cbn [train_loop]. unfold mbind at 1, IO_bind, io_lift, df_getitem. rewrite Hl.
  by rewrite insert_insert_eq.
Qed.

(** X7. A label that is no column of the training dataframe stops the
    training with KeyError, and the store is left holding the pipelines
    fitted for the labels before it, fewer than the labels: the store is
    not restored or removed. *)
Theorem train_svm_missing_label_column
    train pre l post model_file test (fs : filesystem) X ys :
  df_lookup train "Premise" = Some X ->
  has_columns train pre ys ->
  df_lookup train l = None ->
  validation_columns test pre ->
  fs !! model_file <> Some Dir ->
  train_svm train (pre ++ l :: post) model_file test fs =
  (Raise (KeyError l),
   <[model_file := File (dump_all (PyPipeline <$> (fit X <$> ys)))]> fs).
Proof. apply train_svm_stops_at_label. Qed.

(** X8. A label that is a column of the training dataframe but not of the
    validation dataframe stops the training with KeyError after its
    pipeline has been fitted and before it is written: the store holds the
    pipelines of the labels before it only. *)
Theorem train_svm_missing_validation_column
    train t pre l post model_file (fs : filesystem) X Xv ys yts y :
  df_lookup train "Premise" = Some X ->
  has_columns train pre ys ->
  df_lookup train l = Some y ->
  df_lookup t "Premise" = Some Xv ->
  has_columns t pre yts ->
  df_lookup t l = None ->
  fs !! model_file <> Some Dir ->
  train_svm train (pre ++ l :: post) model_file (Some t) fs =
  (Raise (KeyError l),
   <[model_file := File (dump_all (PyPipeline <$> (fit X <$> ys)))]> fs).
Proof.
  intros HX Hys Hy HXv Hyts Hl Hd.
  destruct (train_svm_enter train (pre ++ l :: post) model_file (Some t) fs X HX)
    as (validation & Hv & ->); [split; [by eexists|exists []; constructor]|done|].
  destruct validation as [[t' Xv']|]; [|done]. destruct Hv as [-> HXv'].
  destruct (train_loop_prefix train X model_file (Some (t, Xv')) pre (l :: post) ys []
              (<[model_file := File []]> fs) []) as [scores' ->];
    [done|by exists yts|apply lookup_insert_eq|].
  cbn [train_loop]. unfold mbind at 1, IO_bind, io_lift, df_getitem. rewrite Hy.
  unfold mbind at 1, IO_bind. rewrite Hl. simpl.
  by rewrite insert_insert_eq.
Qed.

(** X9. A call that is turned down before the loop (no text column in the
    training dataframe or in the validation dataframe, or a store path that is
    a directory) raises and leaves the file system as it was: a store that
    is there is not truncated. *)
Theorem train_svm_rejected train labels model_file test (fs : filesystem) :
  df_lookup train "Premise" = None \/
  (exists t, test = Some t /\ df_lookup t "Premise" = None) \/
  fs !! model_file = Some Dir ->
  exists e, train_svm train labels model_file test fs = (Raise e, fs).
Proof.
  intros Hcase. unfold train_svm. unfold mbind at 1, IO_bind, io_lift, df_getitem.
  destruct (df_lookup train "Premise") as [X|] eqn:HX; [|by eexists].
  unfold mbind at 1, IO_bind.
  destruct test as [t|].
  - unfold mbind at 1, result_bind. destruct (df_lookup t "Premise") as [Xv|] eqn:HXv;
      [|by eexists]. simpl.
    destruct Hcase as [?|[(t' & [= <-] & ?)|Hd]]; [done|congruence|].
    unfold mbind at 1, IO_bind, open_wb. rewrite Hd. by eexists.
  - simpl. destruct Hcase as [?|[(t' & ? & ?)|Hd]]; [done|done|].
    unfold mbind at 1, IO_bind, open_wb. rewrite Hd. by eexists.
Qed.


End TrainMore.

(** ** Training and then predicting *)

Section TrainPredict.
Context `{PK : Pickle} `{!PickleLaws} `{!SklearnLaws} {NM : Numeric}.
Implicit Types (X Xp : column) (labels : list string) (ys : list column).

(** X11. After [train_svm] has returned, [predict_svm] with the same labels,
    on the file system it has left and any dataframe that has its text column,
    returns a table whose columns are the labels in order, of the height of
    the text column when there is a label, and in which the column of each
    label is what the pipeline fitted on that label's training column
    predicts. *)
Theorem train_svm_then_predict_svm
    train labels model_file test (fs : filesystem) r fs' dataframe Xp :
  train_svm train labels model_file test fs = (Ok r, fs') ->
  df_lookup dataframe "Premise" = Some Xp ->
  exists X table,
    df_lookup train "Premise" = Some X /\
    predict_svm dataframe labels model_file fs' = (Ok table, fs') /\
    df_columns table = labels /\
    (labels <> [] -> df_index table = length Xp) /\
    forall j l y, labels !! j = Some l -> df_lookup train l = Some y ->
      df_data table !! j = Some (l, predict (fit X y) Xp).
Proof.
  intros Hrun HXp.
  destruct (train_svm_ok_inv _ _ _ _ _ _ _ Hrun) as (X & ys & HX & Hys & Hd & ->).
  pose proof (has_columns_length _ _ _ Hys) as Hlen.
  exists X. eexists. split; [done|]. split_and!.
  - apply (predict_svm_covered _ _ _ _ Xp (dump_all (PyPipeline <$> (fit X <$> ys)))
             (fit X <$> ys)); [done|apply lookup_insert_eq|apply store_records_dump_all|].
    rewrite length_fmap. lia.
  - apply df_columns_fmap.
  - intros Hne. simpl. destruct ys as [|y ys]; [by destruct labels|done].
  - intros j l y Hl Hy. cbn [df_data].
    rewrite list_lookup_fmap, Hl. cbn [fmap option_fmap option_map].
    destruct (dict_get_paired_within Xp labels (fit X <$> ys) j l)
      as (k & m & Hk & Hm & _ & ->); [by rewrite length_fmap|done|].
    destruct (has_columns_lookup _ _ _ _ _ Hys Hk) as (y' & Hy' & Hyk).
    rewrite list_lookup_fmap, Hyk in Hm. by simplify_eq/=.
Qed.

(** X12. The pairing is by position, not by name: after [train_svm] on
    [labels], [predict_svm] with any list [labels'] of as many distinct names
    returns a table whose column at each position bears the name given at
    that position in [labels'] and holds what the pipeline fitted for the
    label at that position of [labels] predicts. *)
Theorem train_svm_then_predict_svm_renamed
    train labels labels' model_file test (fs : filesystem) r fs' dataframe Xp :
  train_svm train labels model_file test fs = (Ok r, fs') ->
  df_lookup dataframe "Premise" = Some Xp ->
  length labels' = length labels ->
  NoDup labels' ->
  exists X table,
    df_lookup train "Premise" = Some X /\
    predict_svm dataframe labels' model_file fs' = (Ok table, fs') /\
    df_columns table = labels' /\
    forall j l l' y, labels !! j = Some l -> labels' !! j = Some l' ->
      df_lookup train l = Some y ->
      df_data table !! j = Some (l', predict (fit X y) Xp).
Proof.
  intros Hrun HXp Hlen' Hnd.
  destruct (train_svm_ok_inv _ _ _ _ _ _ _ Hrun) as (X & ys & HX & Hys & Hd & ->).
  pose proof (has_columns_length _ _ _ Hys) as Hlen.
  exists X. eexists. split; [done|]. split_and!.
  - apply (predict_svm_covered _ _ _ _ Xp (dump_all (PyPipeline <$> (fit X <$> ys)))
             (fit X <$> ys)); [done|apply lookup_insert_eq|apply store_records_dump_all|].
    rewrite length_fmap. lia.
  - apply df_columns_fmap.
  - intros j l l' y Hl Hl' Hy. cbn [df_data].
    rewrite list_lookup_fmap, Hl'. cbn [fmap option_fmap option_map].
    destruct (dict_get_paired_within Xp labels' (fit X <$> ys) j l')
      as (k & m & Hk & Hm & _ & ->); [rewrite length_fmap; lia|done|].
    assert (k = j) as -> by by apply (NoDup_lookup labels' k j l').
    destruct (has_columns_lookup _ _ _ _ _ Hys Hl) as (y' & Hy' & Hyj).
    rewrite list_lookup_fmap, Hyj in Hm. by simplify_eq/=.
Qed.

(** X14. The store that a training has left when it stopped at a label that
    is no column is read by [predict_svm] without complaint: with the same
    labels it returns a table in which the labels before the missing one have
    the predictions of their pipelines and the missing one, when it is not
    also among those before it, a column of NaN. *)
Theorem predict_svm_after_stopped_training
    train pre l post model_file test (fs : filesystem) X ys dataframe Xp :
  df_lookup train "Premise" = Some X ->
  has_columns train pre ys ->
  df_lookup train l = None ->
  validation_columns test pre ->
  fs !! model_file <> Some Dir ->
  df_lookup dataframe "Premise" = Some Xp ->
  exists e fs' table,
    train_svm train (pre ++ l :: post) model_file test fs = (Raise e, fs') /\
    predict_svm dataframe (pre ++ l :: post) model_file fs' = (Ok table, fs') /\
    df_columns table = pre ++ l :: post /\
    (forall j l0 y, pre !! j = Some l0 -> df_lookup train l0 = Some y ->
       df_data table !! j = Some (l0, predict (fit X y) Xp)) /\
    (l ∉ pre -> df_data table !! length pre = Some (l, replicate (df_index table) VNaN)).
Proof.
  intros HX Hys Hl Hval Hd HXp.
  pose proof (has_columns_length _ _ _ Hys) as Hlen.
  assert (Htake : take (length (fit X <$> ys)) (pre ++ l :: post) = pre).
  { rewrite length_fmap, Hlen. by rewrite take_app_length. }
  eexists _, _, _. split; [by apply train_svm_stops_at_label|]. split_and!.
  - apply (predict_svm_covered _ _ _ _ Xp (dump_all (PyPipeline <$> (fit X <$> ys)))
             (fit X <$> ys)); [done|apply lookup_insert_eq|apply store_records_dump_all|].
    rewrite length_fmap, length_app. lia.
  - apply df_columns_fmap.
  - intros j l0 y Hj Hy. cbn [df_data].
    rewrite list_lookup_fmap, (lookup_app_l_Some _ _ _ _ Hj).
    cbn [fmap option_fmap option_map].
    rewrite <- paired_predictions_take, Htake.
    destruct (dict_get_paired_within Xp pre (fit X <$> ys) j l0)
      as (k & m & Hk & Hm & _ & ->); [by rewrite length_fmap|done|].
    destruct (has_columns_lookup _ _ _ _ _ Hys Hk) as (y' & Hy' & Hyk).
    rewrite list_lookup_fmap, Hyk in Hm. by simplify_eq/=.
  - intros Hnotin. cbn [df_data df_index].
    rewrite list_lookup_fmap, list_lookup_middle by done.
    cbn [fmap option_fmap option_map].
    rewrite dict_get_paired_beyond; [done|]. by rewrite Htake.
Qed.

End TrainPredict.

(** ** The entries of the score report *)

Lemma dict_keys_set {V} (d : dict V) k v :
  dict_keys (dict_set d k v) =
  match dict_get d k with
  | Some _ => dict_keys d
  | None => dict_keys d ++ [k]
  end.
Proof.
  unfold dict_keys. induction d as [|[k' v'] d IH]; csimpl; [done|].
  destruct (String.eqb k' k) eqn:E; csimpl; [done|].
  rewrite IH. by destruct (dict_get d k).
Qed.

Lemma dict_keys_set_elem {V} (d : dict V) k v k' :
  k' ∈ dict_keys (dict_set d k v) <-> k' ∈ dict_keys d \/ k' = k.
Proof.
  rewrite dict_keys_set. destruct (dict_get d k) as [v0|] eqn:E.
  - split; [by left|]. intros [?| ->]; [done|].
    apply dict_keys_is_Some. by rewrite E.
  - rewrite elem_of_app, list_elem_of_singleton. done.
Qed.

Lemma dict_keys_set_NoDup {V} (d : dict V) k v :
  NoDup (dict_keys d) -> NoDup (dict_keys (dict_set d k v)).
Proof.
  intros Hd. rewrite dict_keys_set. destruct (dict_get d k) eqn:E; [done|].
  apply dict_get_None in E. apply NoDup_app. split_and!; [done| |apply NoDup_singleton].
  by intros x Hx ->%list_elem_of_singleton.
Qed.

Section ReportEntries.
Context `{PK : Pickle} {NM : Numeric}.

(** The keys of the scores after the loop with validation: those before
    and the labels, each once. *)
Lemma train_loop_keys train X model_file t Xv labels :
  forall (d : dict float) (fs0 : filesystem) scores fs1,
  NoDup (dict_keys d) ->
  train_loop train X model_file (Some (t, Xv)) labels d fs0 = (Ok scores, fs1) ->
  NoDup (dict_keys scores) /\
  forall k, k ∈ dict_keys scores <-> k ∈ dict_keys d \/ k ∈ labels.
Proof.
  induction labels as [|l labels IH]; intros d fs0 scores fs1 Hd Hloop.
  - injection Hloop as <- _. split; [done|]. intros k. rewrite elem_of_nil. tauto.
  - cbn [train_loop] in Hloop. unfold mbind at 1, IO_bind, io_lift in Hloop.
    destruct (df_getitem train l) as [y|e]; [|done].
    unfold mbind at 1, IO_bind in Hloop. unfold mbind at 1, result_bind in Hloop.
    destruct (df_getitem t l) as [yt|e]; [|done]. simpl in Hloop.
    unfold mbind at 1, IO_bind in Hloop.
    destruct (pickle_dump _ model_file fs0) as [[[]|e] fs2]; [|done].
    apply IH in Hloop as [Hnd Hin]; [|by apply dict_keys_set_NoDup].
    split; [done|]. intros k. rewrite Hin, dict_keys_set_elem, elem_of_cons. tauto.
Qed.

(** X13. Whatever the labels, repeated or named avg-f1-score: the report of
    a training with validation has exactly one entry for each distinct name
    among the labels and avg-f1-score. *)
Theorem train_svm_report_entries
    train labels model_file test (fs : filesystem) report fs' :
  train_svm train labels model_file (Some test) fs = (Ok (Some report), fs') ->
  NoDup (dict_keys report) /\
  (forall k, k ∈ dict_keys report <-> k ∈ labels \/ k = "avg-f1-score") /\
  length report = length (remove_dups ("avg-f1-score" :: labels)).
Proof.
  intros Hrun.
  assert (Hkeys : NoDup (dict_keys report) /\
    forall k, k ∈ dict_keys report <-> k ∈ labels \/ k = "avg-f1-score").
  { destruct (train_svm_ok_inv _ _ _ _ _ _ _ Hrun) as (X & ys & HX & Hys & Hd & _).
    revert Hrun. unfold train_svm. io_getitem HX.
    unfold mbind at 1, IO_bind, io_lift.
    destruct (df_getitem test "Premise") as [Xv|e] eqn:HXv; [|done]. simpl.
    io_ok ltac:(by apply open_wb_run).
    unfold mbind at 1, IO_bind.
    destruct (train_loop _ _ _ _ _ _ _) as [[scores|e] fs1] eqn:Hloop; [|done].
    intros [= <- _].
    apply train_loop_keys in Hloop as [Hnd Hin]; [|constructor].
    split; [by apply dict_keys_set_NoDup|].
    intros k. rewrite dict_keys_set_elem, Hin. unfold dict_keys. simpl.
    rewrite elem_of_nil. tauto. }
  destruct Hkeys as [Hnd Hin]. split_and!; [done|done|].
  rewrite <- (length_fmap fst report). apply Permutation_length.
  apply NoDup_Permutation; [done|apply NoDup_remove_dups|].
  intros k. rewrite elem_of_remove_dups, elem_of_cons.
  unfold dict_keys in Hin. rewrite Hin. tauto.
Qed.

End ReportEntries.

(** * The claims on concrete inputs *)

Section Concrete.
#[local] Existing Instances Toy.sklearn Toy.pickle.
Import Toy.
Lemma reads_two_models : reads two_models (models [true; false]) [].
Proof. repeat (econstructor; [reflexivity|]). constructor. Qed.

Lemma reads_one_model : reads one_model (models [true]) [].
Proof. repeat (econstructor; [reflexivity|]). constructor. Qed.

Lemma reads_model_str_garbage :
  reads model_str_garbage (models [true] ++ [PyStr "x"]) [xff; xff].
Proof. repeat (econstructor; [reflexivity|]). constructor. Qed.

Lemma reads_model_then_str : reads model_then_str [PyPipeline true; PyStr "x"] [].
Proof. repeat (econstructor; [reflexivity|]). constructor. Qed.

(** A witness of C10: a store of two models and one label. *)
Lemma predict_svm_more_models_than_labels_witness :
  reads two_models (models [true; false]) [] /\
  predict_svm one_row ["a"] "svm.model" (fs_with two_models) =
  (Raise IndexError, fs_with two_models).
Proof.
  split; [exact reads_two_models|].
  apply (@predict_svm_more_models_than_labels sklearn pickle one_row ["a"] "svm.model" (fs_with two_models)
           [VStr "we should"] two_models [true; false] []).
  - reflexivity.
  - vm_compute. reflexivity.
  - exact reads_two_models.
  - simpl. lia.
Defined.

(** A counterexample to C1 as stated: the store holds a valid model and then a
    plain string, and with no label [predict_svm] raises IndexError at the
    model, before it reads the string; it does not raise PickleError. *)
Lemma predict_svm_IndexError_before_bad_record :
  reads model_then_str [PyPipeline true; PyStr "x"] [] /\
  is_Pipeline (PyStr "x") = false /\
  predict_svm one_row [] "svm.model" (fs_with model_then_str) =
  (Raise IndexError, fs_with model_then_str) /\
  IndexError <> PickleError "svm.model".
Proof.
  split; [exact reads_model_then_str|]. split; [reflexivity|].
  split; [vm_compute; reflexivity|discriminate].
Qed.

(** A witness of C1 as amended: a store with a valid model, a plain string
    and two bytes that are no record, and two labels. *)
Lemma predict_svm_not_Pipeline_witness :
  reads model_str_garbage (models [true] ++ [PyStr "x"]) [xff; xff] /\
  (predict_svm one_row ["a"; "b"] "svm.model" (fs_with model_str_garbage) =
     (Raise (PickleError "svm.model"), fs_with model_str_garbage) /\
   forall tail d,
     predict_loop [VStr "we should"] ["a"; "b"] "svm.model" 0
       (yields (models [true]) (Yield (PyStr "x") tail)) d =
     Raise (PickleError "svm.model")).
Proof.
  split; [exact reads_model_str_garbage|].
  apply (@predict_svm_not_Pipeline sklearn pickle one_row ["a"; "b"] "svm.model" (fs_with model_str_garbage)
           [VStr "we should"] model_str_garbage [true] (PyStr "x") [xff; xff]).
  - reflexivity.
  - vm_compute. reflexivity.
  - exact reads_model_str_garbage.
  - reflexivity.
  - simpl. lia.
Defined.

Lemma store_two_models : store_records two_models (models [true; false]).
Proof. exists []. split; [exact reads_two_models|reflexivity]. Qed.

Lemma store_one_model : store_records one_model (models [true]).
Proof. exists []. split; [exact reads_one_model|reflexivity]. Qed.

Lemma df_wf_one_row : df_wf one_row.
Proof. repeat constructor. Qed.

(** A counterexample to C3 as stated: with no label and an empty store (no model for
    no label) the table has no column and no row, while the dataset has one
    row. *)
Lemma predict_svm_no_label_no_row :
  store_records no_record (models []) /\
  length (@nil bool) = length (@nil string) /\
  df_wf one_row /\ df_index one_row = 1 /\
  predict_svm one_row [] "svm.model" (fs_with no_record) =
  (Ok (mkDataFrame 0 []), fs_with no_record).
Proof.
  split; [exists []; split; [constructor|reflexivity]|].
  split; [reflexivity|]. split; [exact df_wf_one_row|]. split; [reflexivity|].
  vm_compute. reflexivity.
Qed.

(** A witness of C3 as amended: a store of two models and two labels. *)
Lemma predict_svm_table_witness :
  exists table,
    predict_svm one_row ["a"; "b"] "svm.model" (fs_with two_models) =
      (Ok table, fs_with two_models) /\
    df_columns table = ["a"; "b"] /\
    df_index table = df_index one_row /\
    df_wf table /\
    forall j l, ["a"; "b"] !! j = Some l ->
      exists k m, ["a"; "b"] !! k = Some l /\ [true; false] !! k = Some m /\
        (forall k', k < k' -> ["a"; "b"] !! k' <> Some l) /\
        df_data table !! j = Some (l, predict m [VStr "we should"]).
Proof.
  apply (@predict_svm_table sklearn pickle toy_sklearn_laws one_row ["a"; "b"] "svm.model"
           (fs_with two_models) [VStr "we should"] two_models [true; false]).
  - exact df_wf_one_row.
  - reflexivity.
  - vm_compute. reflexivity.
  - exact store_two_models.
  - reflexivity.
  - discriminate.
Defined.

(** A witness of C8: a store of one model and two labels; the column of [b]
    is NaN. *)
Lemma predict_svm_fewer_models_witness :
  predict_loop [VStr "we should"] ["a"; "b"] "svm.model" 0 (load_all_svms_loop one_model) [] =
    Ok (paired_predictions [VStr "we should"] (take (length [true]) ["a"; "b"]) [true] []) /\
  (forall l, l ∉ take (length [true]) ["a"; "b"] ->
     dict_get (paired_predictions [VStr "we should"]
                 (take (length [true]) ["a"; "b"]) [true] []) l = None) /\
  exists table,
    predict_svm one_row ["a"; "b"] "svm.model" (fs_with one_model) =
      (Ok table, fs_with one_model) /\
    df_columns table = ["a"; "b"] /\
    (forall j l, ["a"; "b"] !! j = Some l -> l ∉ take (length [true]) ["a"; "b"] ->
       df_data table !! j = Some (l, replicate (df_index table) VNaN)) /\
    (NoDup ["a"; "b"] -> forall j l, length [true] <= j -> ["a"; "b"] !! j = Some l ->
       df_data table !! j = Some (l, replicate (df_index table) VNaN)).
Proof.
  apply (@predict_svm_fewer_models sklearn pickle toy_sklearn_laws one_row ["a"; "b"]
           "svm.model" (fs_with one_model) [VStr "we should"] one_model [true]).
  - reflexivity.
  - vm_compute. reflexivity.
  - exact store_one_model.
  - simpl. lia.
Defined.


#[local] Existing Instance Binary64.numeric.

Lemma NoDup_a_b : NoDup ["a"; "b"].
Proof. apply (bool_decide_unpack _). vm_compute. exact I. Qed.

Lemma avg_not_in_a_b : "avg-f1-score" ∉ ["a"; "b"].
Proof. apply (bool_decide_unpack _). vm_compute. exact I. Qed.

(** A witness of C6: a training over the labels [a] and [b]. *)
Lemma train_svm_store_order_witness :
  exists X ys f,
    df_lookup train_set "Premise" = Some X /\ has_columns train_set ["a"; "b"] ys /\
    fs_with [x01; x01; x01; x01] !! "svm.model" = Some (File f) /\
    f = dump_all (PyPipeline <$> (fit X <$> ys)) /\
    load_all_svms "svm.model" (fs_with [x01; x01; x01; x01]) =
      (Ok (yields (PyPipeline <$> (fit X <$> ys)) Return), fs_with [x01; x01; x01; x01]) /\
    (forall n l, ["a"; "b"] !! n = Some l ->
       exists y, df_lookup train_set l = Some y /\ (fit X <$> ys) !! n = Some (fit X y)) /\
    (forall Xp, predict_loop Xp ["a"; "b"] "svm.model" 0 (load_all_svms_loop f) [] =
                Ok (paired_predictions Xp ["a"; "b"] (fit X <$> ys) [])) /\
    (forall Xp l y, l ∈ ["a"; "b"] -> df_lookup train_set l = Some y ->
       dict_get (paired_predictions Xp ["a"; "b"] (fit X <$> ys) []) l =
       Some (predict (fit X y) Xp)).
Proof.
  apply (@train_svm_store_order sklearn pickle toy_pickle_laws Binary64.numeric
           train_set ["a"; "b"] "svm.model" None ∅ None (fs_with [x01; x01; x01; x01])).
  vm_compute. reflexivity.
Defined.

(** A witness of C4: a training over the labels [a] and [b]. *)
Lemma train_svm_returns_witness :
  fst (train_svm train_set ["a"; "b"] "svm.model" None ∅) = Ok None /\
  exists report,
    fst (train_svm train_set ["a"; "b"] "svm.model" (Some valid_set) ∅) = Ok (Some report) /\
    length report = length ["a"; "b"] + 1 /\
    dict_keys report = ["a"; "b"] ++ ["avg-f1-score"].
Proof.
  apply (@train_svm_returns sklearn pickle Binary64.numeric train_set ["a"; "b"] "svm.model"
           valid_set ∅ [VStr "we should"; VStr "we should not"]
           [[VInt 1; VInt 0]; [VInt 0; VInt 1]]
           [VStr "it is"; VStr "it was"]
           [[VInt 1; VInt 1]; [VInt 0; VInt 1]]).
  - reflexivity.
  - repeat constructor.
  - reflexivity.
  - repeat constructor.
  - vm_compute. discriminate.
  - exact NoDup_a_b.
  - exact avg_not_in_a_b.
Defined.

(** A counterexample to C5 as stated: with a label named avg-f1-score the report
    maps that label to the mean, 0.5, and not to its own score, 0. *)
Lemma train_svm_label_named_avg :
  fst (train_svm train_set ["a"; "avg-f1-score"] "svm.model" (Some valid_set) ∅) =
    Ok (Some [("a", 1%float); ("avg-f1-score", Binary64.d0_50)]) /\
  label_score [VStr "we should"; VStr "we should not"] [VStr "it is"; VStr "it was"]
    [VInt 0; VInt 0] [VInt 1; VInt 1] = 0%float /\
  df_lookup train_set "avg-f1-score" = Some [VInt 0; VInt 0] /\
  df_lookup valid_set "avg-f1-score" = Some [VInt 1; VInt 1] /\
  PrimFloat.eqb Binary64.d0_50 0%float = false.
Proof. repeat split; vm_compute; reflexivity. Qed.

(** A witness of C5 as amended: the general statement on a training over
    the labels [a] and [b], and the report of the scores 0.80 and 0.60 on a
    validation set of 21 rows. *)
Lemma train_svm_score_report_witness :
  (exists scores report,
     fst (train_svm train_set ["a"; "b"] "svm.model" (Some valid_set) ∅) = Ok (Some report) /\
     report = dict_set scores "avg-f1-score" (round2 (np_mean (dict_values scores))) /\
     (forall l, l ∈ dict_keys scores <-> l ∈ ["a"; "b"]) /\
     (forall l y yt, l ∈ ["a"; "b"] ->
        df_lookup train_set l = Some y -> df_lookup valid_set l = Some yt ->
        dict_get scores l =
          Some (label_score [VStr "we should"; VStr "we should not"]
                            [VStr "it is"; VStr "it was"] y yt) /\
        dict_get report l =
          Some (label_score [VStr "we should"; VStr "we should not"]
                            [VStr "it is"; VStr "it was"] y yt)) /\
     dict_get report "avg-f1-score" = Some (round2 (np_mean (dict_values scores))) /\
     (NoDup ["a"; "b"] ->
      dict_values scores =
      zip_with (label_score [VStr "we should"; VStr "we should not"]
                            [VStr "it is"; VStr "it was"])
               [[VInt 1; VInt 0]; [VInt 0; VInt 1]] [[VInt 1; VInt 1]; [VInt 0; VInt 1]])) /\
  fst (train_svm train_set ["a"; "b"] "svm.model" (Some valid_21) ∅) =
  Ok (Some [("a", Binary64.d0_80); ("b", Binary64.d0_60); ("avg-f1-score", Binary64.d0_70)]).
Proof.
  split.
  - apply (proj1 (@train_svm_score_report sklearn pickle) Binary64.numeric train_set
             ["a"; "b"] "svm.model" valid_set ∅
             [VStr "we should"; VStr "we should not"]
             [[VInt 1; VInt 0]; [VInt 0; VInt 1]]
             [VStr "it is"; VStr "it was"]
             [[VInt 1; VInt 1]; [VInt 0; VInt 1]]).
    + reflexivity.
    + repeat constructor.
    + reflexivity.
    + repeat constructor.
    + vm_compute. discriminate.
    + exact avg_not_in_a_b.
  - apply (proj2 (@train_svm_score_report sklearn pickle) train_set "svm.model" valid_21 ∅
             [VStr "we should"; VStr "we should not"]
             [VInt 1; VInt 0] [VInt 0; VInt 1]
             (replicate 21 (VStr "it is"))
             (replicate 14 (VInt 1) ++ replicate 7 (VInt 0))
             (replicate 9 (VInt 1) ++ replicate 12 (VInt 0))).
    + reflexivity.
    + reflexivity.
    + reflexivity.
    + reflexivity.
    + reflexivity.
    + reflexivity.
    + vm_compute. discriminate.
    + vm_compute. reflexivity.
    + vm_compute. reflexivity.
Defined.

End Concrete.

(** * The further properties on concrete inputs *)

Section ConcreteMore.
#[local] Existing Instances Toy.sklearn Toy.pickle Binary64.numeric.
Import Toy.


(** A witness of X2: a valid model followed by a byte that is no record. *)
Lemma predict_svm_corrupt_record_witness :
  reads (one_model ++ [xff]) (models [true]) [xff] /\
  fst (pickle_load [xff]) = Raise UnpicklingError /\
  predict_svm one_row ["a"; "b"] "svm.model" (fs_with (one_model ++ [xff])) =
  (Raise UnpicklingError, fs_with (one_model ++ [xff])).
Proof.
  assert (Hreads : reads (one_model ++ [xff]) (models [true]) [xff]).
  { repeat (econstructor; [reflexivity|]). constructor. }
  split; [exact Hreads|]. split; [reflexivity|].
  apply (@predict_svm_corrupt_record sklearn pickle one_row ["a"; "b"] "svm.model"
           (fs_with (one_model ++ [xff])) [VStr "we should"] (one_model ++ [xff])
           [true] [xff] UnpicklingError).
  - reflexivity.
  - vm_compute. reflexivity.
  - exact Hreads.
  - reflexivity.
  - discriminate.
  - simpl. lia.
Defined.

(** A witness of X3: an empty store, two labels and a dataframe of one row. *)
Lemma predict_svm_empty_store_witness :
  df_index one_row = 1 /\
  predict_svm one_row ["a"; "b"] "svm.model" (fs_with no_record) =
  (Ok (mkDataFrame 0 ((fun l => (l, [])) <$> ["a"; "b"])), fs_with no_record).
Proof.
  split; [reflexivity|].
  apply (@predict_svm_empty_store sklearn pickle one_row ["a"; "b"] "svm.model"
           (fs_with no_record) [VStr "we should"]).
  - reflexivity.
  - vm_compute. reflexivity.
Defined.

(** A witness of X4: a dataframe with no column, and no file at all. *)
Lemma predict_svm_rejected_witness :
  predict_svm (mkDataFrame 0 []) ["a"] "svm.model" ∅ = (Raise (KeyError "Premise"), ∅) /\
  predict_svm one_row ["a"] "svm.model" ∅ = (Raise (FileNotFoundError "svm.model"), ∅).
Proof.
  split.
  - apply (proj1 (@predict_svm_rejected sklearn pickle (mkDataFrame 0 []) ["a"]
                    "svm.model" ∅)). reflexivity.
  - apply (proj2 (@predict_svm_rejected sklearn pickle one_row ["a"] "svm.model" ∅)).
    + by eexists.
    + reflexivity.
Defined.

(** A witness of X6: a second file beside the store. *)
Lemma train_svm_other_files_witness :
  snd (train_svm train_set ["a"; "b"] "svm.model" None
         {["notes.txt" := File [x01]]}) !! "notes.txt" =
  ({["notes.txt" := File [x01]]} : filesystem) !! "notes.txt".
Proof.
  apply (@train_svm_other_files sklearn pickle Binary64.numeric train_set ["a"; "b"]
           "svm.model" None {["notes.txt" := File [x01]]} "notes.txt").
  discriminate.
Defined.

(** A witness of X7: the label [c] is no column of the training set. *)
Lemma train_svm_missing_label_column_witness :
  train_svm train_set (["a"] ++ "c" :: ["b"]) "svm.model" None ∅ =
  (Raise (KeyError "c"),
   <["svm.model" := File (dump_all (models (fit [VStr "we should"; VStr "we should not"]
                                               <$> [[VInt 1; VInt 0]])))]> ∅).
Proof.
  apply (@train_svm_missing_label_column sklearn pickle Binary64.numeric train_set
           ["a"] "c" ["b"] "svm.model" None ∅
           [VStr "we should"; VStr "we should not"] [[VInt 1; VInt 0]]).
  - reflexivity.
  - repeat constructor.
  - reflexivity.
  - exact I.
  - vm_compute. discriminate.
Defined.

(** A witness of X8: the validation set of 21 rows has no column
    avg-f1-score. *)
Lemma train_svm_missing_validation_column_witness :
  train_svm train_set (["a"] ++ "avg-f1-score" :: []) "svm.model" (Some valid_21) ∅ =
  (Raise (KeyError "avg-f1-score"),
   <["svm.model" := File (dump_all (models (fit [VStr "we should"; VStr "we should not"]
                                               <$> [[VInt 1; VInt 0]])))]> ∅).
Proof.
  apply (@train_svm_missing_validation_column sklearn pickle Binary64.numeric train_set
           valid_21 ["a"] "avg-f1-score" [] "svm.model" ∅
           [VStr "we should"; VStr "we should not"] (replicate 21 (VStr "it is"))
           [[VInt 1; VInt 0]] [replicate 14 (VInt 1) ++ replicate 7 (VInt 0)]
           [VInt 0; VInt 0]).
  - reflexivity.
  - repeat constructor.
  - reflexivity.
  - reflexivity.
  - repeat constructor.
  - reflexivity.
  - vm_compute. discriminate.
Defined.

(** A witness of X9: a training dataframe with no column, and a store that
    is there. *)
Lemma train_svm_rejected_witness :
  exists e,
    train_svm (mkDataFrame 0 []) ["a"] "svm.model" None (fs_with two_models) =
    (Raise e, fs_with two_models).
Proof.
  apply (@train_svm_rejected sklearn pickle Binary64.numeric (mkDataFrame 0 []) ["a"]
           "svm.model" None (fs_with two_models)).
  left. reflexivity.
Defined.


(** A witness of X11: a training over [a] and [b], then a prediction on a
    dataframe of one row. *)
Lemma train_svm_then_predict_svm_witness :
  exists X table,
    df_lookup train_set "Premise" = Some X /\
    predict_svm one_row ["a"; "b"] "svm.model" (fs_with [x01; x01; x01; x01]) =
      (Ok table, fs_with [x01; x01; x01; x01]) /\
    df_columns table = ["a"; "b"] /\
    (["a"; "b"] <> [] -> df_index table = length [VStr "we should"]) /\
    forall j l y, ["a"; "b"] !! j = Some l -> df_lookup train_set l = Some y ->
      df_data table !! j = Some (l, predict (fit X y) [VStr "we should"]).
Proof.
  apply (@train_svm_then_predict_svm sklearn pickle toy_pickle_laws toy_sklearn_laws
           Binary64.numeric train_set ["a"; "b"] "svm.model" None ∅ None
           (fs_with [x01; x01; x01; x01]) one_row [VStr "we should"]).
  - vm_compute. reflexivity.
  - reflexivity.
Defined.

(** A witness of X12: a training over [a] and [b], then a prediction under
    the names [x] and [y]. *)
Lemma train_svm_then_predict_svm_renamed_witness :
  exists X table,
    df_lookup train_set "Premise" = Some X /\
    predict_svm one_row ["x"; "y"] "svm.model" (fs_with [x01; x01; x01; x01]) =
      (Ok table, fs_with [x01; x01; x01; x01]) /\
    df_columns table = ["x"; "y"] /\
    forall j l l' y, ["a"; "b"] !! j = Some l -> ["x"; "y"] !! j = Some l' ->
      df_lookup train_set l = Some y ->
      df_data table !! j = Some (l', predict (fit X y) [VStr "we should"]).
Proof.
  apply (@train_svm_then_predict_svm_renamed sklearn pickle toy_pickle_laws toy_sklearn_laws
           Binary64.numeric train_set ["a"; "b"] ["x"; "y"] "svm.model" None ∅ None
           (fs_with [x01; x01; x01; x01]) one_row [VStr "we should"]).
  - vm_compute. reflexivity.
  - reflexivity.
  - reflexivity.
  - apply (bool_decide_unpack _). vm_compute. exact I.
Defined.

(** A witness of X13: the label [a] given twice. *)
Lemma train_svm_report_entries_witness :
  NoDup (dict_keys [("a", 1%float); ("avg-f1-score", 1%float)]) /\
  (forall k, k ∈ dict_keys [("a", 1%float); ("avg-f1-score", 1%float)] <->
             k ∈ ["a"; "a"] \/ k = "avg-f1-score") /\
  length [("a", 1%float); ("avg-f1-score", 1%float)] =
  length (remove_dups ("avg-f1-score" :: ["a"; "a"])).
Proof.
  apply (@train_svm_report_entries sklearn pickle Binary64.numeric train_set ["a"; "a"]
           "svm.model" valid_set ∅ [("a", 1%float); ("avg-f1-score", 1%float)]
           (fs_with [x01; x01; x01; x01])).
  vm_compute. reflexivity.
Defined.

(** A witness of X14: a training that stops at the label [c], then a
    prediction with the same labels. *)
Lemma predict_svm_after_stopped_training_witness :
  exists e fs' table,
    train_svm train_set (["a"] ++ "c" :: ["b"]) "svm.model" None ∅ = (Raise e, fs') /\
    predict_svm one_row (["a"] ++ "c" :: ["b"]) "svm.model" fs' = (Ok table, fs') /\
    df_columns table = ["a"] ++ "c" :: ["b"] /\
    (forall j l0 y, ["a"] !! j = Some l0 -> df_lookup train_set l0 = Some y ->
       df_data table !! j =
       Some (l0, predict (fit [VStr "we should"; VStr "we should not"] y)
                         [VStr "we should"])) /\
    ("c" ∉ ["a"] ->
     df_data table !! length ["a"] = Some ("c", replicate (df_index table) VNaN)).
Proof.
  apply (@predict_svm_after_stopped_training sklearn pickle toy_pickle_laws toy_sklearn_laws
           Binary64.numeric train_set ["a"] "c" ["b"] "svm.model" None ∅
           [VStr "we should"; VStr "we should not"] [[VInt 1; VInt 0]] one_row
           [VStr "we should"]).
  - reflexivity.
  - repeat constructor.
  - reflexivity.
  - exact I.
  - vm_compute. discriminate.
  - reflexivity.
Defined.

End ConcreteMore.
